(** * cleaned_inventory_system.py: the inventory store

    A shallow embedding of the module: the global dictionary
    [_stock_data], the operations [add_item], [remove_item], [get_qty],
    [check_low_items], [load_data], [save_data] and [print_data], with
    the module logger and the file system they touch kept as explicit
    state.

    Python raises exceptions and keeps every mutation made before the
    raise, so the operations live in a state monad whose result is
    either a returned value or a raised exception, and whose state is
    handed on in both cases.

    Three behaviours of the Python library are not written out but
    taken as they are, as variables of the section the development
    lives in: what [int()] makes of a string, what [json.load] reads
    back for a key that [json.dump] wrote, and which texts standard
    output can encode. Every theorem holds whatever they are. *)

From Stdlib Require Import ZArith Lia Ascii String.
From stdpp Require Import base decidable option list strings gmap pretty sorting.

Open Scope Z_scope.

(** ** Python values *)

(** A binary64 float, as sign, mantissa and exponent (value
    [(-1)^neg * m * 2^e]), with its signed zeros, infinities and NaN. *)
Inductive pyfloat :=
| FNan
| FInf (neg : bool)
| FZero (neg : bool)
| FFinite (neg : bool) (m : positive) (e : Z).

(** The values the module handles: what a caller may pass for [item],
    [qty] or [threshold], and what [json.load] may yield. *)
#[warnings="-register-all"] Inductive pyval :=
| PNone
| PBool (b : bool)
| PInt (z : Z)
| PFloat (f : pyfloat)
| PStr (s : string)
| PList (l : list pyval)
| PDict (d : list (pyval * pyval)).

(** Exception classes. Messages are not kept. *)
Inductive exn :=
| Exception
| ValueError
| TypeError
| KeyError
| AttributeError
| OverflowError
| RecursionError
| OSError
| FileNotFoundError
| JSONDecodeError
| UnicodeDecodeError
| UnicodeEncodeError.

Global Instance exn_eq_dec : EqDecision exn.
Proof. solve_decision. Defined.

(** [issubclass]: every class derives from [Exception],
    [FileNotFoundError] from [OSError], and [json.JSONDecodeError],
    [UnicodeDecodeError] and [UnicodeEncodeError] from [ValueError]. *)
Definition exn_subclass (e c : exn) : bool :=
  match e, c with
  | _, Exception => true
  | FileNotFoundError, OSError => true
  | JSONDecodeError, ValueError => true
  | UnicodeDecodeError, ValueError => true
  | UnicodeEncodeError, ValueError => true
  | _, _ => bool_decide (e = c)
  end.

(** [isinstance(v, str)] *)
Definition isinstance_str (v : pyval) : bool :=
  match v with PStr _ => true | _ => false end.

(** [isinstance(v, int)]: [bool] is a subclass of [int]. *)
Definition isinstance_int (v : pyval) : bool :=
  match v with PInt _ | PBool _ => true | _ => false end.

(** [isinstance(v, dict)] *)
Definition isinstance_dict (v : pyval) : bool :=
  match v with PDict _ => true | _ => false end.

(** The integer an [int] instance stands for ([True] is 1, [False] is 0);
    0 on the other values, where the code never asks. *)
Definition int_value (v : pyval) : Z :=
  match v with
  | PInt z => z
  | PBool true => 1
  | _ => 0
  end.

(** Truth value of [item] in [not item], for the values the code tests:
    a string is falsy exactly when it is empty. *)
Definition str_truthy (s : string) : bool :=
  match s with EmptyString => false | _ => true end.

(** The guard [not isinstance(item, str) or not item], negated. *)
Definition valid_item (v : pyval) : bool :=
  match v with PStr s => str_truthy s | _ => false end.

(** The string behind a valid item. *)
Definition item_name (v : pyval) : string :=
  match v with PStr s => s | _ => EmptyString end.

(** ** The builtins [int()] and [str()] *)

(** [int(f)] for a float: truncation toward zero; NaN raises
    [ValueError] and an infinity raises [OverflowError]. *)
Definition int_of_float (f : pyfloat) : exn + Z :=
  match f with
  | FNan => inl ValueError
  | FInf _ => inl OverflowError
  | FZero _ => inr 0
  | FFinite neg m e =>
      let mag := Z.shiftl (Z.pos m) e in
      inr (if neg then - mag else mag)
  end.

(** [sys.get_int_max_str_digits()], at its default. *)
Definition int_max_str_digits : Z := 4300.

(** The least integer with more digits than that: 10^4300, written
    out (see [int_str_bound_eq]). *)
Definition int_str_bound : Z :=
  10000000000000000000000000000000000000000000000000000000000000000000000000000000000000000000000000000000000000000000000000000000000000000000000000000000000000000000000000000000000000000000000000000000000000000000000000000000000000000000000000000000000000000000000000000000000000000000000000000000000000000000000000000000000000000000000000000000000000000000000000000000000000000000000000000000000000000000000000000000000000000000000000000000000000000000000000000000000000000000000000000000000000000000000000000000000000000000000000000000000000000000000000000000000000000000000000000000000000000000000000000000000000000000000000000000000000000000000000000000000000000000000000000000000000000000000000000000000000000000000000000000000000000000000000000000000000000000000000000000000000000000000000000000000000000000000000000000000000000000000000000000000000000000000000000000000000000000000000000000000000000000000000000000000000000000000000000000000000000000000000000000000000000000000000000000000000000000000000000000000000000000000000000000000000000000000000000000000000000000000000000000000000000000000000000000000000000000000000000000000000000000000000000000000000000000000000000000000000000000000000000000000000000000000000000000000000000000000000000000000000000000000000000000000000000000000000000000000000000000000000000000000000000000000000000000000000000000000000000000000000000000000000000000000000000000000000000000000000000000000000000000000000000000000000000000000000000000000000000000000000000000000000000000000000000000000000000000000000000000000000000000000000000000000000000000000000000000000000000000000000000000000000000000000000000000000000000000000000000000000000000000000000000000000000000000000000000000000000000000000000000000000000000000000000000000000000000000000000000000000000000000000000000000000000000000000000000000000000000000000000000000000000000000000000000000000000000000000000000000000000000000000000000000000000000000000000000000000000000000000000000000000000000000000000000000000000000000000000000000000000000000000000000000000000000000000000000000000000000000000000000000000000000000000000000000000000000000000000000000000000000000000000000000000000000000000000000000000000000000000000000000000000000000000000000000000000000000000000000000000000000000000000000000000000000000000000000000000000000000000000000000000000000000000000000000000000000000000000000000000000000000000000000000000000000000000000000000000000000000000000000000000000000000000000000000000000000000000000000000000000000000000000000000000000000000000000000000000000000000000000000000000000000000000000000000000000000000000000000000000000000000000000000000000000000000000000000000000000000000000000000000000000000000000000000000000000000000000000000000000000000000000000000000000000000000000000000000000000000000000000000000000000000000000000000000000000000000000000000000000000000000000000000000000000000000000000000000000000000000000000000000000000000000000000000000000000000000000000000000000000000000000000000000000000000000000000000000000000000000000000000000000000000000000000000000000000000000000000000000000000000000000000000000000000000000000000000000000000000000000000000000000000000000000000000000000000000000000000000000000000000000000000000000000000000000000000000000000000000000000000000000000000000000000000000000000000000000000000000000000000000000000000000000000000000000000000000000000000000000000000000000000000000000000000000000000000000000000000000000000000000000000000000000000000000000000000000000000000000000000000000000000000000000000000000000000000000000000000000000000000000000000000000000000000000000000000000000000000000000000000000000000000000000000000000000000000000000000000000000000000000000000000000000000000000000000000000000000000000000000000000000000000000000000000000000000000000000000000000000000000000000000000000000000000000000000000000000000000000000000000000000000000000000000000000000000000000000000000000000000000000000000000000000000000000000000000000000000000000000000000000000000000000000000000000000000000000000000000000000000000000000000000000000000000000000000000000000000000000000000000000000000000000000000000000000000000000000000000000000000000000000000000000000000000000000000000000000000000000000000000000000000000000000000000000000000000000.

(** [str(z)] goes through: [z] has no more than 4300 decimal digits.
    On a longer integer the conversion raises [ValueError]. *)
Definition str_fits (z : Z) : bool := Z.abs z <? int_str_bound.
Global Arguments str_fits : simpl never.

(** [str(v)] inside an f-string, for an [int] instance; [None] is the
    [ValueError] of an integer too long to convert. *)
Definition py_str_int (v : pyval) : option string :=
  match v with
  | PBool true => Some "True"
  | PBool false => Some "False"
  | _ => if str_fits (int_value v) then Some (pretty (int_value v)) else None
  end.

(** The list behind [logs] once [None] has been replaced by a new list;
    [None] for a value that has no [append]. *)
Definition logs_list (logs : pyval) : option (list pyval) :=
  match logs with
  | PNone => Some []
  | PList l => Some l
  | _ => None
  end.

(** Truth value of a value, as [not v] tests it. *)
Definition py_truthy (v : pyval) : bool :=
  match v with
  | PNone => false
  | PBool b => b
  | PInt z => negb (z =? 0)
  | PFloat (FZero _) => false
  | PFloat _ => true
  | PStr s => str_truthy s
  | PList l => match l with [] => false | _ => true end
  | PDict d => match d with [] => false | _ => true end
  end.

(** ** The dictionary [_stock_data]

    A Python [dict] keeps its keys in insertion order, and
    [check_low_items] and [json.dump] walk it in that order, so the
    dictionary is the list of its items. A key occurs once
    ([dict_wf]). *)
Abbreviation dict := (list (string * Z)).

(** [d.get(k)] *)
Fixpoint dict_get (k : string) (d : dict) : option Z :=
  match d with
  | [] => None
  | (k', v) :: d' => if bool_decide (k' = k) then Some v else dict_get k d'
  end.

(** [k in d] *)
Definition dict_contains (k : string) (d : dict) : bool :=
  bool_decide (is_Some (dict_get k d)).

(** [d[k] = v]: an existing key keeps its place, a new one goes last. *)
Fixpoint dict_set (k : string) (v : Z) (d : dict) : dict :=
  match d with
  | [] => [(k, v)]
  | (k', v') :: d' =>
      if bool_decide (k' = k) then (k, v) :: d' else (k', v') :: dict_set k v d'
  end.

(** [d.pop(k, None)], result dropped. A key occurs once, so leaving out
    the items with that key leaves out the one there is. *)
Definition dict_pop (k : string) (d : dict) : dict :=
  filter (λ kv, kv.1 ≠ k) d.

Definition dict_wf (d : dict) : Prop := NoDup d.*1.

(** The Python value of the dictionary, as [json.dump] receives it. *)
Definition py_of_dict (d : dict) : pyval :=
  PDict ((λ kv, (PStr kv.1, PInt kv.2)) <$> d).

(** ** Files

    A file is kept as what [json.load] makes of its text: the value the
    decoder yields for it ([Json]), text that is not JSON, on which it
    raises [JSONDecodeError] ([NotJson]; the empty file and a file cut
    short are such), or text on which reading or decoding raises
    another exception ([Undecodable]: bytes that are not UTF-8, a
    number too long to convert, nesting too deep). A path may also name
    something that can be neither opened nor replaced as a file (such
    as a directory): [Locked]. A path that is absent from the map
    does not exist. *)
Inductive content :=
| NotJson
| Undecodable (e : exn)
| Json (v : pyval).

Inductive node :=
| Locked
| File (c : content).

(** ** The module logger: one record per call of the logger, whatever
    the handler then makes of it. *)
Inductive level := INFO | WARNING | ERROR.

Inductive log_record :=
| Added (qty : Z) (item : string) (new_qty : option Z)
| Removed_deleted (qty : Z) (item : string)
| Removed_remaining (qty : Z) (item : string) (remaining : Z)
| Skipping_non_string_key (k : pyval)
| Skipping_non_int_value (k : string) (v : pyval)
| Loaded (n : nat) (file : string)
| Not_found (file : string)
| Failed_to_decode (file : string)
| Unexpected_error_loading (file : string)
| Saved (n : nat) (file : string)
| Failed_to_save (file : string).

Definition record_level (r : log_record) : level :=
  match r with
  | Added _ _ _ | Removed_deleted _ _ | Removed_remaining _ _ _
  | Loaded _ _ | Saved _ _ => INFO
  | Skipping_non_string_key _ | Skipping_non_int_value _ _
  | Not_found _ => WARNING
  | Failed_to_decode _ | Unexpected_error_loading _ | Failed_to_save _ => ERROR
  end.

(** ** State and effects *)

Record world := World {
  stock : dict;                 (* _stock_data *)
  files : gmap string node;     (* the file system *)
  records : list log_record     (* what the logger has emitted, oldest first *)
}.

Definition with_stock (d : dict) (w : world) : world :=
  {| stock := d; files := files w; records := records w |}.
Definition with_files (fs : gmap string node) (w : world) : world :=
  {| stock := stock w; files := fs; records := records w |}.
Definition with_record (r : log_record) (w : world) : world :=
  {| stock := stock w; files := files w; records := records w ++ [r] |}.

Inductive outcome (A : Type) :=
| Return (a : A)
| Raise (e : exn).
Arguments Return {A} a.
Arguments Raise {A} e.

Module Py.

Definition M (A : Type) : Type := world → outcome A * world.

Definition ret {A} (a : A) : M A := λ w, (Return a, w).

Definition bind {A B} (m : M A) (k : A → M B) : M B :=
  λ w, match m w with
       | (Return a, w') => k a w'
       | (Raise e, w') => (Raise e, w')
       end.

Definition raise {A} (e : exn) : M A := λ w, (Raise e, w).

Definition gets {A} (f : world → A) : M A := λ w, (Return (f w), w).

Definition modify (f : world → world) : M unit := λ w, (Return tt, f w).

(** [try: body except c1: h1 except c2: h2 ...]: the first clause
    whose class the exception is an instance of handles it; an
    exception no clause matches goes on to the caller. *)
Fixpoint handle {A} (clauses : list (exn * M A)) (e : exn) : M A :=
  match clauses with
  | [] => raise e
  | (c, h) :: rest => if exn_subclass e c then h else handle rest e
  end.

Definition try_except {A} (body : M A) (clauses : list (exn * M A)) : M A :=
  λ w, match body w with
       | (Return a, w') => (Return a, w')
       | (Raise e, w') => handle clauses e w'
       end.

End Py.

Declare Scope py_scope.
Delimit Scope py_scope with py.
Notation "x <- m ;; k" := (Py.bind m (λ x, k))
  (at level 100, m at next level, right associativity) : py_scope.
Notation "m ;; k" := (Py.bind m (λ _, k))
  (at level 100, right associativity) : py_scope.
Open Scope py_scope.

Definition log (r : log_record) : Py.M unit := Py.modify (with_record r).

(** [_stock_data[k]] *)
Definition stock_getitem (k : string) : Py.M Z :=
  λ w, match dict_get k (stock w) with
       | Some v => (Return v, w)
       | None => (Raise KeyError, w)
       end.

(** ** The operations *)

(** [add_item(item, qty, logs)]. [now] is what [_now_str()] returns at
    the call. The list [logs] is mutated in place by the code; the
    model returns it as it stands after the call. The line for [logs]
    is made after the inventory has changed: [logs.append] is looked up
    first, then the f-string is built. *)
Definition add_item (item qty logs : pyval) (now : string)
  : Py.M (list pyval) :=
  if negb (isinstance_str item) || negb (py_truthy item) then
    Py.raise ValueError
  else if negb (isinstance_int qty) then
    Py.raise ValueError
  else
    let name := item_name item in
    current <- Py.gets (λ w, default 0 (dict_get name (stock w)));;
    let new_qty := current + int_value qty in
    (if new_qty <=? 0
     then Py.modify (λ w, with_stock (dict_pop name (stock w)) w)
     else Py.modify (λ w, with_stock (dict_set name new_qty (stock w)) w));;
    match logs_list logs with
    | None => Py.raise AttributeError
    | Some entries =>
        match py_str_int qty with
        | None => Py.raise ValueError
        | Some text =>
            let entries :=
              entries ++ [PStr (now +:+ ": Added " +:+ text +:+ " of " +:+ name)] in
            shown <- Py.gets (λ w, dict_get name (stock w));;
            log (Added (int_value qty) name shown);;
            Py.ret entries
        end
    end.

(** [remove_item(item, qty)] *)
Definition remove_item (item qty : pyval) : Py.M unit :=
  if negb (isinstance_str item) || negb (py_truthy item) then
    Py.raise ValueError
  else if negb (isinstance_int qty) || (int_value qty <=? 0) then
    Py.raise ValueError
  else
    let name := item_name item in
    let q := int_value qty in
    present <- Py.gets (λ w, dict_contains name (stock w));;
    if negb present then Py.raise KeyError
    else
      current <- stock_getitem name;;
      if current <=? q then
        Py.modify (λ w, with_stock (dict_pop name (stock w)) w);;
        log (Removed_deleted q name)
      else
        current <- stock_getitem name;;
        Py.modify (λ w, with_stock (dict_set name (current - q) (stock w)) w);;
        remaining <- stock_getitem name;;
        log (Removed_remaining q name remaining).

(** [get_qty(item)] *)
Definition get_qty (item : pyval) : Py.M Z :=
  if negb (isinstance_str item) || negb (py_truthy item) then
    Py.raise ValueError
  else
    Py.gets (λ w, default 0 (dict_get (item_name item) (stock w))).

(** [check_low_items(threshold)] *)
Definition check_low_items (threshold : pyval) : Py.M (list string) :=
  if negb (isinstance_int threshold) || (int_value threshold <? 0) then
    Py.raise ValueError
  else
    Py.gets (λ w,
      (filter (λ kv, kv.2 < int_value threshold) (stock w)).*1).

(** [with open(file, "r") as fh: json.load(fh)] *)
Definition open_read (file : string) : Py.M content :=
  λ w, match files w !! file with
       | None => (Raise FileNotFoundError, w)
       | Some Locked => (Raise OSError, w)
       | Some (File c) => (Return c, w)
       end.

Definition json_load (c : content) : Py.M pyval :=
  match c with
  | NotJson => Py.raise JSONDecodeError
  | Undecodable e => Py.raise e
  | Json v => Py.ret v
  end.

(** [data.items()], for a dictionary. *)
Definition py_items (v : pyval) : list (pyval * pyval) :=
  match v with PDict d => d | _ => [] end.

(** [open(tmp_file, "w")]: creates the file, or empties the one that is
    there. *)
Definition open_write (file : string) : Py.M unit :=
  λ w, match files w !! file with
       | Some Locked => (Raise OSError, w)
       | _ => (Return tt, with_files (<[file := File NotJson]> (files w)) w)
       end.

(** [os.replace(src, dst)] *)
Definition os_replace (src dst : string) : Py.M unit :=
  λ w, match files w !! src, files w !! dst with
       | None, _ => (Raise FileNotFoundError, w)
       | _, Some Locked => (Raise OSError, w)
       | Some n, _ =>
           (Return tt, with_files (<[dst := n]> (delete src (files w))) w)
       end.

(** The inventory invariant of the data model. *)
Definition all_positive (d : dict) : Prop := Forall (λ kv, 0 < kv.2) d.

(** A fresh process: empty inventory, no file, nothing logged. *)
Definition start : world := World [] ∅ [].

Definition with_records (rs : list log_record) (w : world) : world :=
  {| stock := stock w; files := files w; records := records w ++ rs |}.

(** The order [sorted] puts the items in: tuples compare by their first
    differing component, so by name, and by quantity under equal
    names. *)
Definition item_le (a b : string * Z) : Prop :=
  (a.1 ≠ b.1 ∧ String.le a.1 b.1) ∨ (a.1 = b.1 ∧ a.2 ≤ b.2).

Global Instance item_le_dec : RelDecision item_le.
Proof. intros a b. unfold item_le. apply _. Defined.

(** The text of [f"{name} -> {qty}"]. *)
Definition report_text (kv : string * Z) : string :=
  kv.1 +:+ " -> " +:+ pretty kv.2.

(** [f"{name} -> {qty}"]: [None] is the [ValueError] of a quantity too
    long to convert. *)
Definition report_line (kv : string * Z) : option string :=
  if str_fits kv.2 then Some (report_text kv) else None.

(** ** The library at hand for the examples

    One behaviour of the three library functions, to run the module on
    concrete data: plain ASCII digit strings convert to their number
    and nothing else does, keys are read back as written, and standard
    output takes every text. It is not a model of the library, and no
    theorem rests on it; on the ASCII names and the values of the
    examples below Python agrees with it. *)
Definition digit_value (a : ascii) : option Z :=
  let n := Z.of_nat (nat_of_ascii a) in
  if (48 <=? n) && (n <=? 57) then Some (n - 48) else None.

Fixpoint digits_value (cs : list ascii) (acc : option Z) : option Z :=
  match cs with
  | [] => acc
  | c :: cs' =>
      match digit_value c with
      | Some d => digits_value cs' (Some (10 * default 0 acc + d))
      | None => None
      end
  end.

Definition ascii_digits (s : string) : option Z :=
  digits_value (list_ascii_of_string s) None.

Definition read_back_same (key : string) : string := key.

Definition encodes_all (text : string) : bool := true.

(** ** The module over the library *)

Section module.

(** [int(s)] for a string [s]: the integer it stands for, or [None] for
    the [ValueError] the builtin raises. *)
Variable int_of_str : string → option Z.

(** The key [json.load] reads back from the text [json.dump] wrote for
    a key. (It is the key itself, unless the key holds a surrogate pair
    as two code points: that pair comes back as one character.) *)
Variable json_reread : string → string.

(** Standard output can encode the text; on a text it cannot encode
    [print] raises [UnicodeEncodeError] and writes nothing of it. *)
Variable stdout_encodes : string → bool.

(** [int(v)] *)
Definition py_int (v : pyval) : exn + Z :=
  match v with
  | PInt z => inr z
  | PBool b => inr (if b then 1 else 0)
  | PFloat f => int_of_float f
  | PStr s => match int_of_str s with Some z => inr z | None => inl ValueError end
  | PNone | PList _ | PDict _ => inl TypeError
  end.

(** The body of the loop of [load_data] for one item of [data],
    continuing with the rest. [cleaned] is the dictionary being built. *)
Fixpoint clean_items (items : list (pyval * pyval)) (cleaned : dict)
  : Py.M dict :=
  match items with
  | [] => Py.ret cleaned
  | (k, v) :: rest =>
      if negb (isinstance_str k) then
        log (Skipping_non_string_key k);;
        clean_items rest cleaned
      else
        vi <- Py.try_except
                (match py_int v with
                 | inr z => Py.ret (Some z)
                 | inl e => Py.raise e
                 end)
                [(TypeError, log (Skipping_non_int_value (item_name k) v);;
                             Py.ret None);
                 (ValueError, log (Skipping_non_int_value (item_name k) v);;
                              Py.ret None)];;
        match vi with
        | None => clean_items rest cleaned
        | Some vi =>
            if 0 <? vi
            then clean_items rest (dict_set (item_name k) vi cleaned)
            else clean_items rest cleaned
        end
  end.

(** [load_data(file)] *)
Definition load_data (file : string) : Py.M unit :=
  Py.try_except
    (text <- open_read file;;
     data <- json_load text;;
     if negb (isinstance_dict data) then Py.raise ValueError
     else
       cleaned <- clean_items (py_items data) [];;
       Py.modify (with_stock cleaned);;
       n <- Py.gets (λ w, length (stock w));;
       log (Loaded n file))
    [(FileNotFoundError, log (Not_found file));
     (JSONDecodeError, log (Failed_to_decode file));
     (Exception, log (Unexpected_error_loading file))].

(** The dictionary [json.load] builds from the text [json.dump] wrote
    for [d]: the keys as they are read back, a key that comes twice
    keeping its first place and its last value. *)
Definition reread_dict (d : dict) : dict :=
  foldl (λ acc kv, dict_set (json_reread kv.1) kv.2 acc) [] d.

(** [json.dump(_stock_data, fh, indent=2)] into the file opened at
    [file]. The text is written piece by piece; an integer too long to
    convert raises [ValueError] and leaves the file cut short. *)
Definition json_dump (d : dict) (file : string) : Py.M unit :=
  if forallb (λ kv, str_fits kv.2) d then
    Py.modify (λ w,
      with_files (<[file := File (Json (py_of_dict (reread_dict d)))]> (files w)) w)
  else
    Py.modify (λ w, with_files (<[file := File NotJson]> (files w)) w);;
    Py.raise ValueError.

(** [save_data(file)] *)
Definition save_data (file : string) : Py.M unit :=
  Py.try_except
    (let tmp_file := file +:+ ".tmp" in
     open_write tmp_file;;
     data <- Py.gets stock;;
     json_dump data tmp_file;;
     os_replace tmp_file file;;
     n <- Py.gets (λ w, length (stock w));;
     log (Saved n file))
    [(Exception, log (Failed_to_save file))].

(** [print(text)]: what is written, and how the call ends. *)
Definition print (text : string) : list string * outcome unit :=
  if stdout_encodes text then ([text], Return ())
  else ([], Raise UnicodeEncodeError).

(** The loop of [print_data]. *)
Fixpoint print_items (items : list (string * Z)) : list string * outcome unit :=
  match items with
  | [] => ([], Return ())
  | kv :: rest =>
      match report_line kv with
      | None => ([], Raise ValueError)
      | Some line =>
          match print line with
          | (out, Return _) => (out ++ (print_items rest).1, (print_items rest).2)
          | (out, Raise e) => (out, Raise e)
          end
      end
  end.

(** [print_data()]: the lines written to standard output, first line
    first, how the call ends, and the state, which it only reads. *)
Definition print_data (w : world)
  : (list string * outcome unit) * world :=
  match print "Items Report" with
  | (out, Return _) =>
      let r := print_items (merge_sort item_le (stock w)) in
      (out ++ r.1, r.2, w)
  | (out, Raise e) => (out, Raise e, w)
  end.

(** ** Runs of the module *)

Inductive call :=
| Add_item (item qty logs : pyval) (now : string)
| Remove_item (item qty : pyval)
| Get_qty (item : pyval)
| Check_low_items (threshold : pyval)
| Load_data (file : string)
| Save_data (file : string).

(** The state a call leaves behind, whether it returns or raises. *)
Definition run (c : call) (w : world) : world :=
  match c with
  | Add_item item qty logs now => (add_item item qty logs now w).2
  | Remove_item item qty => (remove_item item qty w).2
  | Get_qty item => (get_qty item w).2
  | Check_low_items threshold => (check_low_items threshold w).2
  | Load_data file => (load_data file w).2
  | Save_data file => (save_data file w).2
  end.

(** The module starts with [_stock_data = {}] and nothing logged, on
    some file system; every call leads to a further state. *)
Inductive reachable : world → Prop :=
| reachable_start fs : reachable (World [] fs [])
| reachable_call c w : reachable w → reachable (run c w).

(** A sequence of calls, first call first. *)
Definition run_all (cs : list call) (w : world) : world :=
  foldl (λ w c, run c w) w cs.

(** The dictionary [add_item] leaves for good arguments. *)
Definition added (name : string) (qty : Z) (d : dict) : dict :=
  let total := default 0 (dict_get name d) + qty in
  if total <=? 0 then dict_pop name d else dict_set name total d.

(** The record the handlers of [load_data] log for an exception. *)
Definition load_failure (file : string) (e : exn) : log_record :=
  if exn_subclass e FileNotFoundError then Not_found file
  else if exn_subclass e JSONDecodeError then Failed_to_decode file
  else Unexpected_error_loading file.

(** ** The loop of [load_data], as a function *)

(** The loop of [load_data] without its logging: the dictionary it
    builds, or the exception that leaves it. *)
Fixpoint clean_result (items : list (pyval * pyval)) (cleaned : dict)
  : exn + dict :=
  match items with
  | [] => inr cleaned
  | (k, v) :: rest =>
      if negb (isinstance_str k) then clean_result rest cleaned
      else match py_int v with
           | inr vi =>
               if 0 <? vi
               then clean_result rest (dict_set (item_name k) vi cleaned)
               else clean_result rest cleaned
           | inl e =>
               if exn_subclass e TypeError || exn_subclass e ValueError
               then clean_result rest cleaned
               else inl e
           end
  end.

(** The warnings the loop logs, in order. *)
Fixpoint clean_warnings (items : list (pyval * pyval)) : list log_record :=
  match items with
  | [] => []
  | (k, v) :: rest =>
      if negb (isinstance_str k) then
        Skipping_non_string_key k :: clean_warnings rest
      else match py_int v with
           | inr _ => clean_warnings rest
           | inl e =>
               if exn_subclass e TypeError || exn_subclass e ValueError
               then Skipping_non_int_value (item_name k) v :: clean_warnings rest
               else []
           end
  end.

(** The entry the loop keeps for an item of the object, if any: the key
    is a string and [int()] of the value is a positive integer. *)
Definition kept_entry (kv : pyval * pyval) : option (string * Z) :=
  match kv.1, py_int kv.2 with
  | PStr s, inr z => if 0 <? z then Some (s, z) else None
  | _, _ => None
  end.

(** The cleaned result in the words of the specification: the kept
    entries, set one after the other. *)
Definition cleaned_of (items : list (pyval * pyval)) (cleaned : dict) : dict :=
  foldl (λ acc kv, match kept_entry kv with
                   | Some (k, z) => dict_set k z acc
                   | None => acc
                   end) cleaned items.

(** [int()] of the value of a string-keyed item raises
    [OverflowError]: the value is an infinite float. *)
Definition overflows (kv : pyval * pyval) : bool :=
  isinstance_str kv.1 &&
  match py_int kv.2 with inl OverflowError => true | _ => false end.



(** * Properties *)

Example int_of_float_trunc :
  int_of_float (FFinite false 23 (-3)) = inr 2 /\
  int_of_float (FFinite true 23 (-3)) = inr (-2) /\
  int_of_float (FFinite false 3 2) = inr 12.
Proof. repeat split; reflexivity. Qed.

Lemma int_str_bound_eq : int_str_bound = 10 ^ int_max_str_digits.
Proof. by vm_compute. Qed.

Lemma str_fits_spec (z : Z) :
  str_fits z = true ↔ Z.abs z < 10 ^ int_max_str_digits.
Proof. unfold str_fits. rewrite <- int_str_bound_eq. apply Z.ltb_lt. Qed.

Example str_fits_edge :
  str_fits (int_str_bound - 1) = true ∧ str_fits int_str_bound = false ∧
  str_fits (- int_str_bound) = false.
Proof. by vm_compute. Qed.

(** ** The dictionary *)

Section dict_facts.
Implicit Types (k : string) (v : Z) (d : dict).

Lemma dict_get_set_eq k v d : dict_get k (dict_set k v d) = Some v.
Proof.
  induction d as [|[k' v'] d IH]; simpl.
  - by rewrite bool_decide_true.
  - case_bool_decide as Hk; simpl.
    + by rewrite bool_decide_true.
    + by rewrite bool_decide_false.
Qed.

Lemma dict_get_set_ne k k' v d :
  k ≠ k' → dict_get k' (dict_set k v d) = dict_get k' d.
Proof.
  intros Hne. induction d as [|[k0 v0] d IH]; simpl.
  - by rewrite bool_decide_false.
  - case_bool_decide as Hk; simpl.
    + subst k0. by rewrite !bool_decide_false.
    + by rewrite IH.
Qed.

Lemma dict_get_pop_eq k d : dict_get k (dict_pop k d) = None.
Proof.
  unfold dict_pop. induction d as [|[k' v'] d IH]; [done|].
  rewrite filter_cons. simpl. case_decide as Hk; simpl; [|done].
  by rewrite bool_decide_false.
Qed.

Lemma dict_get_pop_ne k k' d :
  k ≠ k' → dict_get k' (dict_pop k d) = dict_get k' d.
Proof.
  intros Hne. unfold dict_pop. induction d as [|[k0 v0] d IH]; [done|].
  rewrite filter_cons. simpl. case_decide as Hk; simpl.
  - by rewrite IH.
  - subst k0. by rewrite bool_decide_false.
Qed.

Lemma dict_get_Some_elem k v d : dict_get k d = Some v → (k, v) ∈ d.
Proof.
  induction d as [|[k' v'] d IH]; simpl; [done|].
  case_bool_decide as Hk.
  - intros [= ->]. subst. left.
  - intros H. right. by apply IH.
Qed.

Lemma dict_get_None_keys k d : dict_get k d = None ↔ k ∉ d.*1.
Proof.
  induction d as [|[k' v'] d IH]; simpl.
  - split; [intros _; apply not_elem_of_nil | done].
  - rewrite not_elem_of_cons. case_bool_decide as Hk.
    + split; [done | intros [Hne _]; by subst].
    + rewrite IH. split; [by split | by intros [_ ?]].
Qed.

Lemma dict_elem_get k v d : dict_wf d → (k, v) ∈ d → dict_get k d = Some v.
Proof.
  unfold dict_wf. induction d as [|[k' v'] d IH]; simpl.
  - intros _ H. by apply elem_of_nil in H.
  - rewrite NoDup_cons. intros [Hnin Hnd] [Heq | Hin]%elem_of_cons.
    + injection Heq as -> ->. by rewrite bool_decide_true.
    + case_bool_decide as Hk; [|by apply IH].
      subst k'. exfalso. apply Hnin.
      apply list_elem_of_fmap. by exists (k, v).
Qed.

Lemma dict_contains_spec k d :
  dict_contains k d = true ↔ ∃ v, dict_get k d = Some v.
Proof. unfold dict_contains. by rewrite bool_decide_eq_true. Qed.

(** Setting a key that is not there yet puts it last. *)
Lemma dict_set_fresh k v d : k ∉ d.*1 → dict_set k v d = d ++ [(k, v)].
Proof.
  induction d as [|[k' v'] d IH]; simpl; [done|].
  rewrite not_elem_of_cons. intros [Hne Hnin].
  rewrite bool_decide_false; [|done]. by rewrite IH.
Qed.

Lemma dict_set_keys k v d :
  (dict_set k v d).*1 = if dict_contains k d then d.*1 else d.*1 ++ [k].
Proof.
  induction d as [|[k' v'] d IH]; simpl; [done|].
  unfold dict_contains in *. simpl.
  destruct (decide (k' = k)) as [->|Hk].
  - rewrite !bool_decide_true; [done | by eexists | done].
  - rewrite (bool_decide_false (k' = k)); [|done]. simpl.
    destruct (bool_decide (is_Some (dict_get k d))); f_equal; exact IH.
Qed.

Lemma dict_set_wf k v d : dict_wf d → dict_wf (dict_set k v d).
Proof.
  unfold dict_wf. intros Hwf. rewrite dict_set_keys.
  destruct (dict_contains k d) eqn:Hc; [done|].
  apply NoDup_app. split_and!; [done | | apply NoDup_singleton].
  intros x Hx ->%list_elem_of_singleton.
  apply not_true_iff_false in Hc. apply Hc, dict_contains_spec.
  destruct (dict_get k d) eqn:Hg; [by eexists|].
  by apply dict_get_None_keys in Hg.
Qed.

Lemma dict_pop_wf k d : dict_wf d → dict_wf (dict_pop k d).
Proof.
  unfold dict_wf, dict_pop. induction d as [|[k' v'] d IH]; [done|].
  rewrite filter_cons, fmap_cons, NoDup_cons. intros [Hnin Hnd].
  case_decide; [|by apply IH].
  rewrite fmap_cons, NoDup_cons. split; [|by apply IH].
  intros (kv & Hkv & [_ Hin]%list_elem_of_filter)%list_elem_of_fmap.
  apply Hnin. apply list_elem_of_fmap. by exists kv.
Qed.

Lemma dict_set_positive k v d :
  0 < v → all_positive d → all_positive (dict_set k v d).
Proof.
  unfold all_positive. intros Hv. induction d as [|[k' v'] d IH]; simpl.
  - intros _. by repeat constructor.
  - rewrite Forall_cons. intros [Hv' Hd]. case_bool_decide.
    + by apply Forall_cons.
    + apply Forall_cons. auto.
Qed.

Lemma dict_pop_positive k d : all_positive d → all_positive (dict_pop k d).
Proof.
  unfold all_positive, dict_pop. rewrite !Forall_forall.
  intros Hpos kv [_ Hin]%list_elem_of_filter. by apply Hpos.
Qed.

Lemma dict_get_positive k v d : all_positive d → dict_get k d = Some v → 0 < v.
Proof.
  unfold all_positive. rewrite Forall_forall.
  intros Hpos Hg%dict_get_Some_elem. by apply (Hpos (k, v)).
Qed.

End dict_facts.

Lemma dict_pop_absent (k : string) (d : dict) :
  dict_get k d = None → dict_pop k d = d.
Proof.
  unfold dict_pop. induction d as [|[k' v'] d IH]; simpl; [done|].
  case_bool_decide as Hk; [done|]. intros Hd.
  rewrite filter_cons. simpl. rewrite decide_True by done.
  by rewrite IH.
Qed.

Lemma dict_set_same (k : string) (v : Z) (d : dict) :
  dict_get k d = Some v → dict_set k v d = d.
Proof.
  induction d as [|[k' v'] d IH]; simpl; [done|].
  case_bool_decide as Hk.
  - intros [=]. by subst.
  - intros Hd. by rewrite IH.
Qed.

Lemma dict_set_set (k : string) (v1 v2 : Z) (d : dict) :
  dict_set k v2 (dict_set k v1 d) = dict_set k v2 d.
Proof.
  induction d as [|[k' v'] d IH]; simpl.
  - by rewrite bool_decide_true.
  - case_bool_decide as Hk; simpl.
    + by rewrite bool_decide_true.
    + rewrite bool_decide_false by done. by rewrite IH.
Qed.

Lemma dict_pop_set (k : string) (v : Z) (d : dict) :
  dict_pop k (dict_set k v d) = dict_pop k d.
Proof.
  unfold dict_pop. induction d as [|[k' v'] d IH]; simpl.
  - rewrite filter_cons. simpl. by rewrite decide_False by (by intros ?).
  - case_bool_decide as Hk; simpl.
    + subst k'. rewrite !filter_cons. simpl.
      by rewrite !decide_False by (by intros ?).
    + rewrite !filter_cons. simpl. rewrite !decide_True by done.
      by rewrite IH.
Qed.

(** ** Arguments *)

Lemma valid_item_spec (item : pyval) :
  valid_item item = true ↔ ∃ s, item = PStr s ∧ s ≠ "".
Proof.
  split.
  - destruct item as [| | | |s| |]; try done. intros Hs. exists s.
    split; [done|]. by intros ->.
  - intros (s & -> & Hs). by destruct s.
Qed.

(** The guard on [item] shared by [add_item], [remove_item] and
    [get_qty]. *)
Lemma item_guard (item : pyval) :
  negb (isinstance_str item) || negb (py_truthy item) = negb (valid_item item).
Proof. by destruct item. Qed.

Lemma valid_item_str (s : string) : s ≠ "" → valid_item (PStr s) = true.
Proof. intros Hs. apply valid_item_spec. by exists s. Qed.

Lemma valid_item_name (item : pyval) :
  valid_item item = true → item = PStr (item_name item) ∧ item_name item ≠ "".
Proof. intros (s & -> & Hs)%valid_item_spec. done. Qed.


Ltac py_simpl :=
  unfold Py.bind, Py.gets, Py.modify, Py.ret, Py.raise, log, stock_getitem;
  simpl.

(** ** [get_qty] *)

Lemma get_qty_eq (item : pyval) (w : world) :
  get_qty item w =
  (if valid_item item
   then Return (default 0 (dict_get (item_name item) (stock w)))
   else Raise ValueError, w).
Proof.
  unfold get_qty. rewrite item_guard. by destruct (valid_item item).
Qed.

(** ** [add_item] *)

(** What [add_item] does with a good item and a good quantity: the
    inventory changes first; then the call ends on [logs] or on the
    text of [qty], or goes through. *)
Lemma add_item_valid (item qty logs : pyval) now (w : world) :
  valid_item item = true → isinstance_int qty = true →
  let name := item_name item in
  let d := added name (int_value qty) (stock w) in
  add_item item qty logs now w =
  match logs_list logs with
  | None => (Raise AttributeError, with_stock d w)
  | Some entries =>
      match py_str_int qty with
      | None => (Raise ValueError, with_stock d w)
      | Some text =>
          (Return (entries ++
                     [PStr (now +:+ ": Added " +:+ text +:+ " of " +:+ name)]),
           with_record (Added (int_value qty) name (dict_get name d))
             (with_stock d w))
      end
  end.
Proof.
  intros Hitem Hqty. unfold add_item, added.
  rewrite item_guard, Hitem, Hqty. simpl.
  py_simpl.
  destruct (_ <=? 0); destruct (logs_list logs); try done;
    by destruct (py_str_int qty).
Qed.

Lemma add_item_invalid (item qty logs : pyval) now (w : world) :
  valid_item item = false ∨ isinstance_int qty = false →
  add_item item qty logs now w = (Raise ValueError, w).
Proof.
  intros H. unfold add_item. rewrite item_guard.
  destruct (valid_item item); simpl; [|done].
  destruct H as [H|H]; [done | by rewrite H].
Qed.

Lemma add_item_stock (item qty logs : pyval) now (w : world) :
  valid_item item = true → isinstance_int qty = true →
  stock (add_item item qty logs now w).2
  = added (item_name item) (int_value qty) (stock w).
Proof.
  intros Hitem Hqty. rewrite add_item_valid by done.
  destruct (logs_list logs); [|done]. by destruct (py_str_int qty).
Qed.

Lemma add_item_files (item qty logs : pyval) now (w : world) :
  files (add_item item qty logs now w).2 = files w.
Proof.
  destruct (valid_item item) eqn:Hitem;
    [destruct (isinstance_int qty) eqn:Hqty|].
  - rewrite add_item_valid by done.
    destruct (logs_list logs); [|done]. by destruct (py_str_int qty).
  - by rewrite add_item_invalid by auto.
  - by rewrite add_item_invalid by auto.
Qed.

Lemma add_item_returns (item qty logs : pyval) now (w : world) :
  valid_item item = true → isinstance_int qty = true →
  (∃ entries, (add_item item qty logs now w).1 = Return entries) ↔
  is_Some (logs_list logs) ∧ is_Some (py_str_int qty).
Proof.
  intros Hitem Hqty. rewrite add_item_valid by done.
  destruct (logs_list logs) as [entries|]; simpl.
  - destruct (py_str_int qty) as [text|]; simpl.
    + split; [by intros _ | by eexists].
    + split; [by intros [? ?] | by intros [_ [? ?]]].
  - split; [by intros [? ?] | by intros [[? ?] _]].
Qed.

Lemma py_str_int_fits (qty : pyval) :
  str_fits (int_value qty) = true → is_Some (py_str_int qty).
Proof.
  intros Hfits. unfold py_str_int.
  destruct qty as [|[|]| | | | |]; rewrite ?Hfits; by eexists.
Qed.

(** C3. For every inventory state, every non-empty string [s] and every
    integer [qty] (negative ones included), [add_item] computes the new
    total as the current quantity of [s] (0 when absent) plus [qty].
    When the total is at most 0 the item is removed and [get_qty] then
    returns 0; otherwise the quantity of the item is the new total. The
    call returns when [logs] is [None] or a list and [qty] has at most
    4300 digits; the inventory is changed as said in any case. *)
Theorem add_item_new_total (w : world) (s : string) (qty logs : pyval)
    (now : string) :
  s ≠ "" → isinstance_int qty = true →
  let total := default 0 (dict_get s (stock w)) + int_value qty in
  let r := add_item (PStr s) qty logs now w in
  (is_Some (logs_list logs) → str_fits (int_value qty) = true →
     ∃ logs', r.1 = Return logs') ∧
  (total ≤ 0 →
     stock r.2 = dict_pop s (stock w) ∧
     dict_get s (stock r.2) = None ∧
     get_qty (PStr s) r.2 = (Return 0, r.2)) ∧
  (0 < total →
     stock r.2 = dict_set s total (stock w) ∧
     dict_get s (stock r.2) = Some total ∧
     get_qty (PStr s) r.2 = (Return total, r.2)).
Proof.
  intros Hs Hqty total r. subst r.
  assert (Hitem := valid_item_str s Hs).
  split_and!.
  - intros Hlogs Hfits. apply add_item_returns; [done | done |].
    split; [done | by apply py_str_int_fits].
  - intros Hle. rewrite get_qty_eq, Hitem, add_item_stock by done.
    unfold added. simpl. fold total.
    destruct (Z.leb_spec total 0); [|lia].
    by rewrite dict_get_pop_eq.
  - intros Hlt. rewrite get_qty_eq, Hitem, add_item_stock by done.
    unfold added. simpl. fold total.
    destruct (Z.leb_spec total 0); [lia|].
    by rewrite dict_get_set_eq.
Qed.

Lemma add_item_new_total_witness :
  let w := World [("apple", 4)] ∅ [] in
  let r := add_item (PStr "apple") (PInt (-4)) PNone "t" w in
  (∃ logs', r.1 = Return logs') ∧
  stock r.2 = [] ∧ get_qty (PStr "apple") r.2 = (Return 0, r.2).
Proof.
  intros w r.
  destruct (add_item_new_total w "apple" (PInt (-4)) PNone "t")
    as (Hret & Hle & _); [done | reflexivity |].
  destruct Hle as (Hpop & _ & Hget); [simpl; lia|].
  split_and!; [|exact Hpop | exact Hget].
  apply Hret; [by eexists | by vm_compute].
Defined.

(** Items other than the one named keep their quantity. *)
Lemma add_item_other (w : world) (item qty logs : pyval) now (k : string) :
  k ≠ item_name item →
  dict_get k (stock (add_item item qty logs now w).2) = dict_get k (stock w).
Proof.
  intros Hk. destruct (valid_item item) eqn:Hitem;
    [destruct (isinstance_int qty) eqn:Hqty|].
  - rewrite add_item_stock by done. unfold added. destruct (_ <=? 0).
    + by rewrite dict_get_pop_ne.
    + by rewrite dict_get_set_ne.
  - by rewrite add_item_invalid by auto.
  - by rewrite add_item_invalid by auto.
Qed.

(** C8. For every inventory state and every non-empty string [s],
    [get_qty] returns the quantity stored for [s], or 0 when [s] is
    absent, and leaves the state alone; on an item that is not a
    non-empty string it raises [ValueError]. *)
Theorem get_qty_returns_quantity (w : world) :
  (∀ s, s ≠ "" →
     get_qty (PStr s) w = (Return (default 0 (dict_get s (stock w))), w) ∧
     (∀ q, dict_get s (stock w) = Some q → (get_qty (PStr s) w).1 = Return q) ∧
     (dict_get s (stock w) = None → (get_qty (PStr s) w).1 = Return 0)) ∧
  (∀ item, ¬ (∃ s, item = PStr s ∧ s ≠ "") →
     get_qty item w = (Raise ValueError, w)).
Proof.
  split.
  - intros s Hs. rewrite get_qty_eq, valid_item_str by done. simpl.
    split_and!; [done | by intros q -> | by intros ->].
  - intros item Hbad. rewrite get_qty_eq.
    destruct (valid_item item) eqn:Hv; [|done].
    by apply valid_item_spec in Hv.
Qed.

Lemma get_qty_returns_quantity_witness :
  let w := World [("apple", 7)] ∅ [] in
  (get_qty (PStr "apple") w).1 = Return 7 ∧
  (get_qty (PStr "pear") w).1 = Return 0 ∧
  get_qty (PStr "") w = (Raise ValueError, w) ∧
  get_qty (PInt 3) w = (Raise ValueError, w).
Proof.
  intros w. destruct (get_qty_returns_quantity w) as [Hgood Hbad].
  split_and!.
  - destruct (Hgood "apple") as (_ & Hsome & _); [done|]. by apply Hsome.
  - destruct (Hgood "pear") as (_ & _ & Hnone); [done|]. by apply Hnone.
  - apply Hbad. by intros (s & [= <-] & Hs).
  - apply Hbad. by intros (s & [=] & _).
Defined.

(** ** [remove_item] *)

Lemma remove_item_eq (item qty : pyval) (w : world) (cur : Z) :
  valid_item item = true → isinstance_int qty = true → 0 < int_value qty →
  dict_get (item_name item) (stock w) = Some cur →
  let name := item_name item in
  let q := int_value qty in
  remove_item item qty w =
  if cur <=? q
  then (Return (),
        with_record (Removed_deleted q name)
          (with_stock (dict_pop name (stock w)) w))
  else (Return (),
        with_record (Removed_remaining q name (cur - q))
          (with_stock (dict_set name (cur - q) (stock w)) w)).
Proof.
  intros Hitem Hqty Hpos Hcur name q. unfold remove_item.
  rewrite item_guard, Hitem, Hqty. simpl.
  destruct (Z.leb_spec (int_value qty) 0); [lia|].
  py_simpl. unfold dict_contains. rewrite Hcur.
  rewrite bool_decide_true by (by eexists). simpl. rewrite Hcur. simpl.
  subst name q. destruct (cur <=? int_value qty); [done|]. simpl.
  rewrite Hcur. simpl. by rewrite dict_get_set_eq.
Qed.

Lemma remove_item_invalid (item qty : pyval) (w : world) :
  valid_item item = false ∨ isinstance_int qty = false ∨ int_value qty ≤ 0 →
  remove_item item qty w = (Raise ValueError, w).
Proof.
  intros H. unfold remove_item. rewrite item_guard.
  destruct (valid_item item); simpl; [|done].
  destruct (isinstance_int qty); simpl; [|done].
  destruct (Z.leb_spec (int_value qty) 0); [done|].
  destruct H as [H|[H|H]]; [done | done | lia].
Qed.

Lemma remove_item_missing (item qty : pyval) (w : world) :
  valid_item item = true → isinstance_int qty = true → 0 < int_value qty →
  dict_get (item_name item) (stock w) = None →
  remove_item item qty w = (Raise KeyError, w).
Proof.
  intros Hitem Hqty Hpos Hcur. unfold remove_item.
  rewrite item_guard, Hitem, Hqty. simpl.
  destruct (Z.leb_spec (int_value qty) 0); [lia|].
  py_simpl. unfold dict_contains. rewrite Hcur.
  rewrite bool_decide_false; [done|]. by intros [? ?].
Qed.

(** C4. For every inventory state in which the item [s] is present with
    quantity [cur], and every positive integer [qty], [remove_item]
    returns; it deletes the item when [cur <= qty] and otherwise leaves
    it with [cur - qty]. In particular, wherever "apple" is absent,
    adding 10 of it, removing 3 and asking for it gives 7. *)
Theorem remove_item_deletes_or_decrements (w : world) (s : string)
    (qty : pyval) (cur : Z) :
  s ≠ "" → isinstance_int qty = true → 0 < int_value qty →
  dict_get s (stock w) = Some cur →
  let r := remove_item (PStr s) qty w in
  r.1 = Return () ∧
  (cur ≤ int_value qty →
     stock r.2 = dict_pop s (stock w) ∧ dict_get s (stock r.2) = None) ∧
  (int_value qty < cur →
     stock r.2 = dict_set s (cur - int_value qty) (stock w) ∧
     dict_get s (stock r.2) = Some (cur - int_value qty)) ∧
  (∀ w0 logs now, dict_get "apple" (stock w0) = None →
     let w1 := (add_item (PStr "apple") (PInt 10) logs now w0).2 in
     let w2 := (remove_item (PStr "apple") (PInt 3) w1).2 in
     (get_qty (PStr "apple") w2).1 = Return 7).
Proof.
  intros Hs Hqty Hpos Hcur r. subst r.
  assert (Hrm := remove_item_eq (PStr s) qty w cur
                   (valid_item_str s Hs) Hqty Hpos Hcur).
  simpl in Hrm. split_and!; try (rewrite Hrm; clear Hrm).
  - by destruct (_ <=? _).
  - intros Hle. destruct (Z.leb_spec cur (int_value qty)); [|lia]. simpl.
    by rewrite dict_get_pop_eq.
  - intros Hlt. destruct (Z.leb_spec cur (int_value qty)); [lia|]. simpl.
    by rewrite dict_get_set_eq.
  - intros w0 logs now Habsent. cbv zeta. rewrite get_qty_eq.
    assert (Hadd : stock (add_item (PStr "apple") (PInt 10) logs now w0).2
                   = dict_set "apple" 10 (stock w0)).
    { rewrite add_item_stock by done. unfold added. simpl.
      by rewrite Habsent. }
    rewrite (remove_item_eq (PStr "apple") (PInt 3) _ 10);
      [| done | done | done
       | cbn [item_name]; by rewrite Hadd, dict_get_set_eq].
    simpl. by rewrite Hadd, dict_set_set, dict_get_set_eq.
Qed.

Lemma remove_item_deletes_or_decrements_witness :
  let w := World [("apple", 10); ("banana", 2)] ∅ [] in
  stock (remove_item (PStr "apple") (PInt 3) w).2
    = [("apple", 7); ("banana", 2)] ∧
  stock (remove_item (PStr "banana") (PInt 2) w).2 = [("apple", 10)] ∧
  (get_qty (PStr "apple")
     (remove_item (PStr "apple") (PInt 3)
        (add_item (PStr "apple") (PInt 10) PNone "t" start).2).2).1 = Return 7.
Proof.
  intros w. split_and!.
  - destruct (remove_item_deletes_or_decrements w "apple" (PInt 3) 10)
      as (_ & _ & Hdec & _); [done | done | simpl; lia | done |].
    destruct Hdec as [Hst _]; [simpl; lia|]. exact Hst.
  - destruct (remove_item_deletes_or_decrements w "banana" (PInt 2) 2)
      as (_ & Hdel & _ & _); [done | done | simpl; lia | done |].
    destruct Hdel as [Hst _]; [simpl; lia|]. exact Hst.
  - destruct (remove_item_deletes_or_decrements w "apple" (PInt 3) 10)
      as (_ & _ & _ & Hex); [done | done | simpl; lia | done |].
    exact (Hex start PNone "t" eq_refl).
Defined.

Lemma remove_item_other (w : world) (item qty : pyval) (k : string) :
  k ≠ item_name item →
  dict_get k (stock (remove_item item qty w).2) = dict_get k (stock w).
Proof.
  intros Hk.
  destruct (valid_item item) eqn:Hitem;
    [|by rewrite remove_item_invalid by auto].
  destruct (isinstance_int qty) eqn:Hqty;
    [|by rewrite remove_item_invalid by auto].
  destruct (Z.le_gt_cases (int_value qty) 0);
    [by rewrite remove_item_invalid by auto|].
  destruct (dict_get (item_name item) (stock w)) as [cur|] eqn:Hcur;
    [|by rewrite remove_item_missing by (done || lia)].
  rewrite (remove_item_eq item qty w cur) by (done || lia).
  destruct (_ <=? _); simpl.
  - by rewrite dict_get_pop_ne.
  - by rewrite dict_get_set_ne.
Qed.

(** ** [check_low_items] *)

Lemma check_low_items_eq (threshold : pyval) (w : world) :
  check_low_items threshold w =
  (if isinstance_int threshold && (0 <=? int_value threshold)
   then Return (filter (λ kv, kv.2 < int_value threshold) (stock w)).*1
   else Raise ValueError, w).
Proof.
  unfold check_low_items. destruct (isinstance_int threshold); simpl; [|done].
  destruct (Z.ltb_spec (int_value threshold) 0),
    (Z.leb_spec 0 (int_value threshold)); (done || lia).
Qed.

(** C9. For every inventory state and every non-negative integer
    threshold, [check_low_items] returns, in dictionary order, the names
    of exactly the items whose quantity is strictly below the threshold;
    it raises [ValueError] when the threshold is not a non-negative
    integer. On {"apple": 10, "banana": 2} with threshold 5 it returns
    ["banana"]. *)
Theorem check_low_items_below_threshold (w : world) (threshold : pyval) :
  isinstance_int threshold = true → 0 ≤ int_value threshold →
  (∃ names,
     check_low_items threshold w = (Return names, w) ∧
     (∀ name, name ∈ names ↔
        ∃ q, (name, q) ∈ stock w ∧ q < int_value threshold) ∧
     (dict_wf (stock w) →
        NoDup names ∧
        ∀ name, name ∈ names ↔
          ∃ q, dict_get name (stock w) = Some q ∧ q < int_value threshold)) ∧
  (∀ bad, ¬ (isinstance_int bad = true ∧ 0 ≤ int_value bad) →
     check_low_items bad w = (Raise ValueError, w)) ∧
  (∀ fs rs,
     check_low_items (PInt 5) (World [("apple", 10); ("banana", 2)] fs rs)
     = (Return ["banana"], World [("apple", 10); ("banana", 2)] fs rs)).
Proof.
  intros Hint Hnn. split_and!.
  - eexists. rewrite check_low_items_eq, Hint. simpl.
    destruct (Z.leb_spec 0 (int_value threshold)); [|lia].
    split; [done|].
    assert (Hmem : ∀ name,
      name ∈ (filter (λ kv, kv.2 < int_value threshold) (stock w)).*1 ↔
      ∃ q, (name, q) ∈ stock w ∧ q < int_value threshold).
    { intros name. rewrite list_elem_of_fmap. split.
      - intros ([k q] & -> & [Hlt Hin]%list_elem_of_filter). by exists q.
      - intros (q & Hin & Hlt). exists (name, q). split; [done|].
        by apply list_elem_of_filter. }
    split; [exact Hmem|]. intros Hwf. split.
    + eapply sublist_NoDup; [exact Hwf|].
      apply fmap_sublist, sublist_filter.
    + intros name. rewrite Hmem. split; intros (q & Hq & Hlt); exists q.
      * split; [by apply dict_elem_get | done].
      * split; [by apply dict_get_Some_elem | done].
  - intros bad Hbad. rewrite check_low_items_eq.
    destruct (isinstance_int bad); simpl; [|done].
    destruct (Z.leb_spec 0 (int_value bad)); [|done].
    exfalso. by apply Hbad.
  - intros fs rs. reflexivity.
Qed.

Lemma check_low_items_below_threshold_witness :
  check_low_items (PInt 3) (World [("pear", 1); ("fig", 3); ("kiwi", 2)] ∅ [])
  = (Return ["pear"; "kiwi"], World [("pear", 1); ("fig", 3); ("kiwi", 2)] ∅ []).
Proof.
  destruct (check_low_items_below_threshold
              (World [("pear", 1); ("fig", 3); ("kiwi", 2)] ∅ []) (PInt 3))
    as ((names & Heq & _) & _); [done | simpl; lia |].
  rewrite Heq. f_equal. f_equal.
  rewrite check_low_items_eq in Heq. simpl in Heq. by injection Heq as <-.
Defined.

(** ** Errors *)

Lemma remove_item_cases (item qty : pyval) (w : world) :
  (valid_item item = true ∧ isinstance_int qty = true ∧ 0 < int_value qty ∧
   is_Some (dict_get (item_name item) (stock w)) ∧
   ∃ w', remove_item item qty w = (Return (), w')) ∨
  (valid_item item = true ∧ isinstance_int qty = true ∧ 0 < int_value qty ∧
   dict_get (item_name item) (stock w) = None ∧
   remove_item item qty w = (Raise KeyError, w)) ∨
  ((valid_item item = false ∨ isinstance_int qty = false ∨ int_value qty ≤ 0) ∧
   remove_item item qty w = (Raise ValueError, w)).
Proof.
  destruct (valid_item item) eqn:Hitem;
    [|right; right; rewrite remove_item_invalid; auto].
  destruct (isinstance_int qty) eqn:Hqty;
    [|right; right; rewrite remove_item_invalid; auto].
  destruct (Z.le_gt_cases (int_value qty) 0);
    [right; right; rewrite remove_item_invalid; auto|].
  destruct (dict_get (item_name item) (stock w)) as [cur|] eqn:Hcur.
  - left. rewrite (remove_item_eq item qty w cur) by (done || lia).
    split_and!; [done | done | lia | by eexists |].
    destruct (_ <=? _); eauto.
  - right; left. rewrite remove_item_missing by (done || lia).
    split_and!; (done || lia).
Qed.

(** C7. A bad item name or a bad quantity always reaches the caller as
    [ValueError]: [add_item] raises it, before changing anything,
    whenever the item is not a non-empty string or [qty] is not an
    integer (its only other [ValueError] is that of a good quantity too
    long to write into [logs]); [remove_item] raises it exactly when
    the item is not a non-empty string or [qty] is not a positive
    integer, and raises [KeyError] exactly when the arguments are good
    and the item is absent; [get_qty] raises it exactly on a bad item
    and [check_low_items] exactly on a threshold that is not a
    non-negative integer. *)
Theorem invalid_argument_reaches_caller (w : world) :
  (∀ item qty logs now,
     valid_item item = false ∨ isinstance_int qty = false →
     add_item item qty logs now w = (Raise ValueError, w)) ∧
  (∀ item qty logs now,
     (add_item item qty logs now w).1 = Raise ValueError ↔
     valid_item item = false ∨ isinstance_int qty = false ∨
     (is_Some (logs_list logs) ∧ py_str_int qty = None)) ∧
  (∀ item qty,
     (remove_item item qty w).1 = Raise ValueError ↔
     valid_item item = false ∨
     ¬ (isinstance_int qty = true ∧ 0 < int_value qty)) ∧
  (∀ item qty,
     (remove_item item qty w).1 = Raise KeyError ↔
     valid_item item = true ∧ isinstance_int qty = true ∧
     0 < int_value qty ∧ dict_get (item_name item) (stock w) = None) ∧
  (∀ item,
     (get_qty item w).1 = Raise ValueError ↔ valid_item item = false) ∧
  (∀ threshold,
     (check_low_items threshold w).1 = Raise ValueError ↔
     ¬ (isinstance_int threshold = true ∧ 0 ≤ int_value threshold)).
Proof.
  split_and!.
  - intros item qty logs now. apply add_item_invalid.
  - intros item qty logs now.
    destruct (valid_item item) eqn:Hitem;
      [destruct (isinstance_int qty) eqn:Hqty|].
    + rewrite add_item_valid by done.
      destruct (logs_list logs) as [entries|]; simpl.
      * destruct (py_str_int qty) as [text|]; simpl.
        -- split; [done|]. by intros [|[|[_ ?]]].
        -- split; [intros _|done]. right; right. split; [by eexists | done].
      * split; [done|]. by intros [|[|[[? ?] _]]].
    + rewrite add_item_invalid by auto. simpl. split; auto.
    + rewrite add_item_invalid by auto. simpl. split; auto.
  - intros item qty.
    destruct (remove_item_cases item qty w)
      as [(Hi & Hq & Hp & _ & w' & ->) | [(Hi & Hq & Hp & _ & ->) | [Hbad ->]]];
      simpl.
    + split; [done|]. rewrite Hi. intros [|Hn]; [done|]. by destruct Hn.
    + split; [done|]. rewrite Hi. intros [|Hn]; [done|]. by destruct Hn.
    + split; [intros _|done].
      destruct Hbad as [|[Hq|Hq]]; [by left | right | right].
      * rewrite Hq. by intros [? _].
      * intros [_ ?]. lia.
  - intros item qty.
    destruct (remove_item_cases item qty w)
      as [(Hi & Hq & Hp & [cur Hc] & w' & ->)
         | [(Hi & Hq & Hp & Hc & ->) | [Hbad ->]]]; simpl.
    + split; [done|]. rewrite Hc. by intros (_ & _ & _ & ?).
    + done.
    + split; [done|]. intros (Hi & Hq & Hp & _).
      destruct Hbad as [?|[?|?]]; [congruence | congruence | lia].
  - intros item. rewrite get_qty_eq. simpl.
    destruct (valid_item item); by split.
  - intros threshold. rewrite check_low_items_eq. simpl.
    destruct (isinstance_int threshold); simpl.
    + destruct (Z.leb_spec 0 (int_value threshold)).
      * split; [done|]. intros Hn. by destruct Hn.
      * split; [intros _|done]. intros [_ ?]. lia.
    + split; [intros _|done]. by intros [? _].
Qed.

(** A call that fails on its arguments fails before it changes
    anything: [remove_item], [get_qty] and [check_low_items] whenever
    they raise, [add_item] when it raises for a bad item or a bad
    quantity. *)
Lemma validation_failure_changes_nothing (w : world) (e : exn) :
  (∀ item qty logs now,
     valid_item item = false ∨ isinstance_int qty = false →
     (add_item item qty logs now w).2 = w) ∧
  (∀ item qty,
     (remove_item item qty w).1 = Raise e →
     (remove_item item qty w).2 = w) ∧
  (∀ item,
     (get_qty item w).1 = Raise e → (get_qty item w).2 = w) ∧
  (∀ threshold,
     (check_low_items threshold w).1 = Raise e →
     (check_low_items threshold w).2 = w).
Proof.
  split_and!.
  - intros item qty logs now Hbad. by rewrite add_item_invalid.
  - intros item qty.
    by destruct (remove_item_cases item qty w)
      as [(_ & _ & _ & _ & w' & ->) | [(_ & _ & _ & _ & ->) | [_ ->]]].
  - intros item. by rewrite get_qty_eq.
  - intros threshold. by rewrite check_low_items_eq.
Qed.

(** C10. Where the claim and the code part: [add_item] makes the line
    for [logs] after it has changed the inventory. With "apple" at 7,
    adding the integer -(10^4300), which has 4301 digits, empties the
    inventory and then raises [ValueError] when the line is made; the
    call has failed and the inventory is not the one it found. ([logs]
    without [append] does the same with [AttributeError].) *)
Theorem add_item_fails_after_change :
  let w := World [("apple", 7)] ∅ [] in
  add_item (PStr "apple") (PInt (- int_str_bound)) PNone "t" w
    = (Raise ValueError, World [] ∅ []) ∧
  add_item (PStr "apple") (PInt 1) (PInt 0) "t" w
    = (Raise AttributeError, World [("apple", 8)] ∅ []).
Proof. intros w. by vm_compute. Qed.

(** ** [load_data] *)

Lemma with_records_nil (w : world) : with_records [] w = w.
Proof. destruct w. unfold with_records. simpl. by rewrite app_nil_r. Qed.

Lemma with_records_cons r rs (w : world) :
  with_records rs (with_record r w) = with_records (r :: rs) w.
Proof.
  unfold with_records, with_record. simpl. by rewrite <- app_assoc.
Qed.

Lemma py_int_exn (v : pyval) (e : exn) :
  py_int v = inl e → e = TypeError ∨ e = ValueError ∨ e = OverflowError.
Proof.
  destruct v as [| | |f|s| |]; simpl.
  - intros [=]; subst; auto.
  - done.
  - done.
  - destruct f; simpl; intros [=]; subst; auto.
  - destruct (int_of_str s); [done|]. intros [=]; subst; auto.
  - intros [=]; subst; auto.
  - intros [=]; subst; auto.
Qed.

Lemma clean_items_eq (items : list (pyval * pyval)) (cleaned : dict)
    (w : world) :
  clean_items items cleaned w =
  (match clean_result items cleaned with
   | inr d => Return d
   | inl e => Raise e
   end, with_records (clean_warnings items) w).
Proof.
  revert cleaned w. induction items as [|[k v] rest IH]; intros cleaned w.
  - simpl. by rewrite with_records_nil.
  - simpl. destruct (isinstance_str k); simpl.
    + unfold Py.bind, Py.try_except.
      destruct (py_int v) as [e|vi] eqn:Hint; simpl.
      * destruct (py_int_exn v e Hint) as [-> | [-> | ->]]; simpl.
        -- py_simpl. by rewrite IH, with_records_cons.
        -- py_simpl. by rewrite IH, with_records_cons.
        -- unfold Py.raise. by rewrite with_records_nil.
      * destruct (0 <? vi); by rewrite IH.
    + py_simpl. by rewrite IH, with_records_cons.
Qed.

(** Only the [OverflowError] of [int()] leaves the loop. *)
Lemma clean_result_exn items cleaned e :
  clean_result items cleaned = inl e → e = OverflowError.
Proof.
  revert cleaned. induction items as [|[k v] rest IH]; intros cleaned; simpl.
  - done.
  - destruct (isinstance_str k); simpl; [|by apply IH].
    destruct (py_int v) as [e'|vi] eqn:Hint.
    + destruct (py_int_exn v e' Hint) as [-> | [-> | ->]]; simpl.
      * apply IH.
      * apply IH.
      * by intros [=].
    + destruct (0 <? vi); apply IH.
Qed.

Lemma bind_ret {A B} (a : A) (k : A → Py.M B) : Py.bind (Py.ret a) k = k a.
Proof. reflexivity. Qed.

(** What one call of [load_data] does, case by case. It always
    returns. *)
Lemma load_data_eq (file : string) (w : world) :
  load_data file w =
  (Return (),
   match files w !! file with
   | None => with_record (Not_found file) w
   | Some Locked => with_record (Unexpected_error_loading file) w
   | Some (File NotJson) => with_record (Failed_to_decode file) w
   | Some (File (Undecodable e)) => with_record (load_failure file e) w
   | Some (File (Json (PDict items))) =>
       match clean_result items [] with
       | inr d =>
           with_records (clean_warnings items ++ [Loaded (length d) file])
             (with_stock d w)
       | inl _ =>
           with_records
             (clean_warnings items ++ [Unexpected_error_loading file]) w
       end
   | Some (File (Json _)) => with_record (Unexpected_error_loading file) w
   end).
Proof.
  unfold load_data, Py.try_except, Py.bind at 1, open_read.
  destruct (files w !! file) as [[|[|e|v]]|] eqn:Hf; simpl; try done.
  { unfold load_failure. by destruct e. }
  destruct v as [| | | | | |items]; simpl; try done.
  rewrite bind_ret. simpl. unfold Py.bind at 1. rewrite clean_items_eq.
  destruct (clean_result items []) as [e|d] eqn:Hclean; simpl.
  - apply clean_result_exn in Hclean as ->. simpl.
    unfold log, Py.modify, with_records, with_record. simpl.
    by rewrite <- app_assoc.
  - py_simpl. unfold with_records, with_record, with_stock. simpl.
    by rewrite <- app_assoc.
Qed.


(** Whatever the loop builds is positive when what it started from is. *)
Lemma clean_result_positive items cleaned d :
  all_positive cleaned → clean_result items cleaned = inr d → all_positive d.
Proof.
  revert cleaned. induction items as [|[k v] rest IH]; intros cleaned Hpos; simpl.
  - intros [=]. by subst.
  - destruct (isinstance_str k); simpl; [|by apply IH].
    destruct (py_int v) as [e|vi].
    + destruct (_ || _); [by apply IH | done].
    + destruct (Z.ltb_spec 0 vi); [|by apply IH].
      apply IH. by apply dict_set_positive.
Qed.

Lemma clean_result_wf items cleaned d :
  dict_wf cleaned → clean_result items cleaned = inr d → dict_wf d.
Proof.
  revert cleaned. induction items as [|[k v] rest IH]; intros cleaned Hwf; simpl.
  - intros [=]. by subst.
  - destruct (isinstance_str k); simpl; [|by apply IH].
    destruct (py_int v) as [e|vi].
    + destruct (_ || _); [by apply IH | done].
    + destruct (0 <? vi); [|by apply IH].
      apply IH. by apply dict_set_wf.
Qed.

(** The stock after [load_data]: the cleaned dictionary when the file
    holds a JSON object that the loop gets through, the old stock in
    every other case. *)
Lemma load_data_stock (file : string) (w : world) :
  stock (load_data file w).2 =
  match files w !! file with
  | Some (File (Json (PDict items))) =>
      match clean_result items [] with inr d => d | inl _ => stock w end
  | _ => stock w
  end.
Proof.
  rewrite load_data_eq. simpl.
  destruct (files w !! file) as [[|[|e|v]]|]; try done.
  destruct v; try done. by destruct (clean_result _ _).
Qed.

(** ** [save_data] *)

Lemma tmp_file_ne (file : string) : file +:+ ".tmp" ≠ file.
Proof.
  induction file as [|a file IH]; simpl; [done|].
  intros [=]. by apply IH.
Qed.

(** What one call of [save_data] does, case by case. It always
    returns; a failed write shows only in the log. *)
Lemma save_data_eq (file : string) (w : world) :
  let tmp_file := file +:+ ".tmp" in
  let data := File (Json (py_of_dict (reread_dict (stock w)))) in
  save_data file w =
  (Return (),
   match files w !! tmp_file with
   | Some Locked => with_record (Failed_to_save file) w
   | _ =>
       if forallb (λ kv, str_fits kv.2) (stock w) then
         match files w !! file with
         | Some Locked =>
             with_record (Failed_to_save file)
               (with_files (<[tmp_file := data]> (files w)) w)
         | _ =>
             with_record (Saved (length (stock w)) file)
               (with_files (<[file := data]> (delete tmp_file (files w))) w)
         end
       else
         with_record (Failed_to_save file)
           (with_files (<[tmp_file := File NotJson]> (files w)) w)
   end).
Proof.
  intros tmp_file data.
  assert (Hne : tmp_file ≠ file) by apply tmp_file_ne.
  assert (Hmoved : ∀ n,
    <[file := data]> (delete tmp_file
      (<[tmp_file := data]> (<[tmp_file := n]> (files w))))
    = <[file := data]> (delete tmp_file (files w))).
  { intros n. by rewrite !delete_insert_eq. }
  unfold save_data, Py.try_except, Py.bind at 1, open_write.
  fold tmp_file.
  assert (Hopen : ∀ w1 : world,
    files w1 = <[tmp_file := File NotJson]> (files w) →
    stock w1 = stock w → records w1 = records w →
    (let (o, w') :=
       (data0 <- Py.gets stock;;
        json_dump data0 tmp_file;;
        os_replace tmp_file file;;
        n <- Py.gets (λ w2, length (stock w2));; log (Saved n file)) w1 in
     match o with
     | Return a => (Return a, w')
     | Raise e => Py.handle [(Exception, log (Failed_to_save file))] e w'
     end) =
    (Return (),
     if forallb (λ kv, str_fits kv.2) (stock w) then
       match files w !! file with
       | Some Locked =>
           with_record (Failed_to_save file)
             (with_files (<[tmp_file := data]> (files w)) w)
       | _ =>
           with_record (Saved (length (stock w)) file)
             (with_files (<[file := data]> (delete tmp_file (files w))) w)
       end
     else
       with_record (Failed_to_save file)
         (with_files (<[tmp_file := File NotJson]> (files w)) w))).
  { intros [st fs rs] Hfs Hst Hrs. simpl in *. subst st rs fs.
    py_simpl. unfold json_dump.
    destruct (forallb (λ kv, str_fits kv.2) (stock w)); py_simpl.
    - unfold os_replace. simpl.
      rewrite lookup_insert_eq, !lookup_insert_ne by done. fold data.
      destruct (files w !! file) as [[|c']|] eqn:Hfile; simpl;
        unfold with_record, with_files; simpl.
      + by rewrite insert_insert_eq.
      + by rewrite Hmoved.
      + by rewrite Hmoved.
    - unfold with_record, with_files. simpl. by rewrite insert_insert_eq. }
  destruct (files w !! tmp_file) as [[|c]|] eqn:Htmp; simpl; [done | |];
    by apply Hopen.
Qed.


Lemma save_data_stock (file : string) (w : world) :
  stock (save_data file w).2 = stock w.
Proof.
  rewrite save_data_eq. simpl.
  by destruct (files w !! (file +:+ ".tmp")) as [[|?]|],
    (forallb (λ kv, str_fits kv.2) (stock w)), (files w !! file) as [[|?]|].
Qed.

(** [save_data] got through exactly when it could write: its last log
    record is then the closing [Saved]. *)
Lemma save_data_saved (file : string) (w : world) :
  last (records (save_data file w).2) = Some (Saved (length (stock w)) file) ↔
  files w !! (file +:+ ".tmp") ≠ Some Locked ∧ files w !! file ≠ Some Locked ∧
  forallb (λ kv, str_fits kv.2) (stock w) = true.
Proof.
  rewrite save_data_eq. simpl.
  destruct (files w !! (file +:+ ".tmp")) as [[|?]|],
    (forallb (λ kv, str_fits kv.2) (stock w)), (files w !! file) as [[|?]|];
    simpl; rewrite last_snoc;
    split; (done || by intros (? & ? & ?) || by split_and!).
Qed.

(** When it got through, the file holds the text of the dictionary. *)
Lemma save_data_writes (file : string) (w : world) :
  last (records (save_data file w).2) = Some (Saved (length (stock w)) file) →
  files (save_data file w).2 !! file
  = Some (File (Json (py_of_dict (reread_dict (stock w))))).
Proof.
  intros (Htmp & Hfile & Hfits)%save_data_saved.
  rewrite save_data_eq. simpl. rewrite Hfits.
  destruct (files w !! (file +:+ ".tmp")) as [[|?]|],
    (files w !! file) as [[|?]|]; try done; simpl;
    by rewrite lookup_insert_eq.
Qed.

(** ** [save_data] then [load_data] *)

Lemma clean_of_dict (d cleaned : dict) :
  all_positive d → NoDup (cleaned.*1 ++ d.*1) →
  clean_result (py_items (py_of_dict d)) cleaned = inr (cleaned ++ d) ∧
  clean_warnings (py_items (py_of_dict d)) = [].
Proof.
  unfold all_positive. simpl. revert cleaned.
  induction d as [|[k v] d IH]; intros cleaned Hpos Hnd.
  - simpl. by rewrite app_nil_r.
  - apply Forall_cons in Hpos as [Hv Hpos]. simpl in Hv.
    rewrite fmap_cons. simpl.
    destruct (Z.ltb_spec 0 v); [|lia].
    rewrite fmap_cons, cons_middle, app_assoc in Hnd. simpl in Hnd.
    assert (Hfresh : k ∉ cleaned.*1).
    { apply NoDup_app in Hnd as [Hnd _].
      apply NoDup_app in Hnd as (_ & Hdisj & _).
      intros Hin. apply (Hdisj k Hin). left. }
    rewrite dict_set_fresh by done.
    destruct (IH (cleaned ++ [(k, v)])) as [Hres Hwarn]; [done | |].
    + by rewrite fmap_app.
    + rewrite Hres, Hwarn. by rewrite <- app_assoc.
Qed.

(** A dictionary whose keys are read back as written is read back as
    it is. *)
Lemma reread_dict_same (d : dict) :
  dict_wf d → Forall (λ kv, json_reread kv.1 = kv.1) d → reread_dict d = d.
Proof.
  unfold reread_dict, dict_wf. intros Hwf Hsame.
  enough (Hgen : ∀ acc, NoDup (acc.*1 ++ d.*1) →
    foldl (λ acc kv, dict_set (json_reread kv.1) kv.2 acc) acc d = acc ++ d)
    by (by apply (Hgen [])).
  clear Hwf. induction Hsame as [|[k v] d Hk _ IH]; intros acc Hnd.
  - simpl. by rewrite app_nil_r.
  - simpl in Hk. simpl. rewrite Hk.
    rewrite fmap_cons, cons_middle, app_assoc in Hnd. simpl in Hnd.
    assert (Hfresh : k ∉ acc.*1).
    { apply NoDup_app in Hnd as [Hnd _].
      apply NoDup_app in Hnd as (_ & Hdisj & _).
      intros Hin. apply (Hdisj k Hin). left. }
    rewrite dict_set_fresh by done.
    rewrite IH; [by rewrite <- app_assoc | by rewrite fmap_app].
Qed.

Lemma load_after_save (file : string) (w w' : world) :
  dict_wf (stock w) → all_positive (stock w) →
  Forall (λ kv, json_reread kv.1 = kv.1) (stock w) →
  files w' !! file = Some (File (Json (py_of_dict (reread_dict (stock w))))) →
  stock (load_data file w').2 = stock w.
Proof.
  intros Hwf Hpos Hsame Hfile. rewrite load_data_stock, Hfile.
  rewrite reread_dict_same by done.
  destruct (clean_of_dict (stock w) []) as [Hres _]; [done | done |].
  unfold py_of_dict, py_items in *. by rewrite Hres.
Qed.

(** C6 (as amended). For every inventory whose quantities are all
    positive and whose item names [json.load] reads back as
    [json.dump] wrote them, when [save_data file] succeeds, that is
    when it gets as far as logging that it saved, [load_data file]
    after it leaves exactly the same dictionary, items and order. *)
Theorem save_then_load_same_stock (w : world) (file : string) :
  dict_wf (stock w) → all_positive (stock w) →
  Forall (λ kv, json_reread kv.1 = kv.1) (stock w) →
  last (records (save_data file w).2) = Some (Saved (length (stock w)) file) →
  stock (load_data file (save_data file w).2).2 = stock w.
Proof.
  intros Hwf Hpos Hsame Hsaved.
  apply load_after_save; [done | done | done |].
  by apply save_data_writes.
Qed.

(** ** The invariant *)

Lemma added_positive (name : string) (qty : Z) (d : dict) :
  all_positive d → all_positive (added name qty d).
Proof.
  intros Hpos. unfold added.
  destruct (Z.leb_spec (default 0 (dict_get name d) + qty) 0).
  - by apply dict_pop_positive.
  - by apply dict_set_positive.
Qed.

Lemma added_wf (name : string) (qty : Z) (d : dict) :
  dict_wf d → dict_wf (added name qty d).
Proof.
  intros Hwf. unfold added.
  destruct (_ <=? 0); [by apply dict_pop_wf | by apply dict_set_wf].
Qed.

Lemma add_item_positive item qty logs now (w : world) :
  all_positive (stock w) →
  all_positive (stock (add_item item qty logs now w).2).
Proof.
  intros Hpos. destruct (valid_item item) eqn:Hitem;
    [destruct (isinstance_int qty) eqn:Hqty|].
  - rewrite add_item_stock by done. by apply added_positive.
  - by rewrite add_item_invalid by auto.
  - by rewrite add_item_invalid by auto.
Qed.

Lemma remove_item_positive item qty (w : world) :
  all_positive (stock w) →
  all_positive (stock (remove_item item qty w).2).
Proof.
  intros Hpos.
  destruct (remove_item_cases item qty w)
    as [(Hi & Hq & Hp & [cur Hc] & _) | [(_ & _ & _ & _ & ->) | [_ ->]]];
    [|done|done].
  rewrite (remove_item_eq item qty w cur) by done.
  destruct (Z.leb_spec cur (int_value qty)); simpl.
  - by apply dict_pop_positive.
  - apply dict_set_positive; [lia | done].
Qed.

Lemma load_data_positive file (w : world) :
  all_positive (stock w) → all_positive (stock (load_data file w).2).
Proof.
  intros Hpos. rewrite load_data_stock.
  destruct (files w !! file) as [[|[|e|v]]|]; try done.
  destruct v as [| | | | | |items]; try done.
  destruct (clean_result _ _) as [e|d] eqn:Hclean; [done|].
  eapply clean_result_positive; [|exact Hclean]. constructor.
Qed.

Lemma run_positive (c : call) (w : world) :
  all_positive (stock w) → all_positive (stock (run c w)).
Proof.
  intros Hpos. destruct c; simpl.
  - by apply add_item_positive.
  - by apply remove_item_positive.
  - by rewrite get_qty_eq.
  - by rewrite check_low_items_eq.
  - by apply load_data_positive.
  - by rewrite save_data_stock.
Qed.

(** C2. In every state the module can reach, every stored quantity is
    strictly positive; [add_item], [remove_item] and [load_data] (and the
    calls that do not touch the inventory) each keep it so, whatever
    their arguments and whether they return or raise: an item whose
    quantity would drop to 0 or below is taken out instead. *)
Theorem stock_always_positive :
  (∀ w, reachable w → all_positive (stock w)) ∧
  (∀ w item qty logs now,
     all_positive (stock w) →
     all_positive (stock (add_item item qty logs now w).2)) ∧
  (∀ w item qty,
     all_positive (stock w) →
     all_positive (stock (remove_item item qty w).2)) ∧
  (∀ w file,
     all_positive (stock w) → all_positive (stock (load_data file w).2)) ∧
  (∀ w k q, reachable w → dict_get k (stock w) = Some q → 0 < q).
Proof.
  assert (Hreach : ∀ w, reachable w → all_positive (stock w)).
  { induction 1 as [fs | c w _ IH]; [constructor | by apply run_positive]. }
  split_and!.
  - exact Hreach.
  - intros. by apply add_item_positive.
  - intros. by apply remove_item_positive.
  - intros. by apply load_data_positive.
  - intros w k q Hw Hq. eapply dict_get_positive; [by apply Hreach | done].
Qed.

(** A reachable dictionary lists each key once. *)
Lemma reachable_wf (w : world) : reachable w → dict_wf (stock w).
Proof.
  induction 1 as [fs | c w _ IH]; [apply NoDup_nil_2|].
  destruct c as [item qty logs now | item qty | item | t | file | file]; simpl.
  - destruct (valid_item item) eqn:Hitem;
      [destruct (isinstance_int qty) eqn:Hqty|].
    + rewrite add_item_stock by done. by apply added_wf.
    + by rewrite add_item_invalid by auto.
    + by rewrite add_item_invalid by auto.
  - destruct (remove_item_cases item qty w)
      as [(Hi & Hq & Hp & [cur Hc] & _) | [(_ & _ & _ & _ & ->) | [_ ->]]];
      [|done|done].
    rewrite (remove_item_eq item qty w cur) by done.
    destruct (_ <=? _); simpl; [by apply dict_pop_wf | by apply dict_set_wf].
  - by rewrite get_qty_eq.
  - by rewrite check_low_items_eq.
  - rewrite load_data_stock.
    destruct (files w !! file) as [[|[|e|v]]|]; try done.
    destruct v as [| | | | | |items]; try done.
    destruct (clean_result _ _) as [e|d] eqn:Hclean; [done|].
    eapply clean_result_wf; [|exact Hclean]. apply NoDup_nil_2.
  - by rewrite save_data_stock.
Qed.

(** ** [load_data] on a file it cannot use *)

(** A load that fails, for whatever reason, returns to the caller and
    leaves the inventory it found. *)
Lemma load_data_failure_keeps_stock (file : string) (w : world) :
  match files w !! file with
  | Some (File (Json (PDict _))) => False
  | _ => True
  end →
  (load_data file w).1 = Return () ∧
  stock (load_data file w).2 = stock w ∧
  files (load_data file w).2 = files w.
Proof.
  intros Hbad. rewrite load_data_eq. simpl.
  destruct (files w !! file) as [[|[|e|v]]|]; try done.
  by destruct v.
Qed.

(** C1. Where the claim and the code part: with "apple" in stock,
    [load_data] on a path that does not exist, on a file that is not
    JSON, and on a file whose JSON is not an object returns without
    raising, as claimed, but the inventory is still the one it found,
    not the empty one; only the log says otherwise. *)
Theorem load_data_failure_not_empty :
  let missing := World [("apple", 7)] ∅ [] in
  let malformed := World [("apple", 7)] {[ "inventory.json" := File NotJson ]} [] in
  let not_object :=
    World [("apple", 7)] {[ "inventory.json" := File (Json (PList [])) ]} [] in
  load_data "inventory.json" missing
    = (Return (), with_record (Not_found "inventory.json") missing) ∧
  load_data "inventory.json" malformed
    = (Return (), with_record (Failed_to_decode "inventory.json") malformed) ∧
  load_data "inventory.json" not_object
    = (Return (),
       with_record (Unexpected_error_loading "inventory.json") not_object) ∧
  stock (load_data "inventory.json" missing).2 = [("apple", 7)] ∧
  stock (load_data "inventory.json" malformed).2 = [("apple", 7)] ∧
  stock (load_data "inventory.json" not_object).2 = [("apple", 7)].
Proof. intros missing malformed not_object. by vm_compute. Qed.

(** ** [load_data] on a JSON object *)


Lemma clean_result_no_overflow items cleaned :
  Forall (λ kv, overflows kv = false) items →
  clean_result items cleaned = inr (cleaned_of items cleaned).
Proof.
  revert cleaned. induction items as [|[k v] rest IH]; intros cleaned Hno.
  - done.
  - apply Forall_cons in Hno as [Hkv Hno]. simpl.
    unfold overflows, kept_entry in *. simpl in *.
    destruct k as [| | | |s| |]; simpl in *; try by apply IH.
    destruct (py_int v) as [e|vi] eqn:Hint.
    + destruct (py_int_exn v e Hint) as [-> | [-> | ->]]; simpl;
        [by apply IH | by apply IH | done].
    + destruct (0 <? vi); by apply IH.
Qed.

(** Without an infinite float among its values, the object replaces the
    whole inventory by its cleaned result; the log gets one warning per
    skipped item, nothing for a dropped non-positive value, and the
    closing record. *)
Lemma load_data_object (file : string) (w : world) items :
  files w !! file = Some (File (Json (PDict items))) →
  Forall (λ kv, overflows kv = false) items →
  load_data file w =
  (Return (),
   with_records
     (clean_warnings items ++ [Loaded (length (cleaned_of items [])) file])
     (with_stock (cleaned_of items []) w)).
Proof.
  intros Hfile Hno. rewrite load_data_eq, Hfile.
  by rewrite clean_result_no_overflow.
Qed.



(** C5. Where the claim and the code part: the file holds the JSON
    object {"a": 1, "b": 1e999}, whose second value decodes to the float
    infinity. [int()] raises [OverflowError] on it, which the loop does
    not catch: the load is abandoned, the inventory is still the old
    one, {"old": 3}, and not the cleaned {"a": 1}, and the log holds an
    error, not a warning about "b". *)
Theorem load_data_infinite_value_abandons :
  let object := PDict [(PStr "a", PInt 1); (PStr "b", PFloat (FInf false))] in
  let w := World [("old", 3)] {[ "inventory.json" := File (Json object) ]} [] in
  load_data "inventory.json" w
    = (Return (), with_record (Unexpected_error_loading "inventory.json") w) ∧
  stock (load_data "inventory.json" w).2 = [("old", 3)] ∧
  cleaned_of (py_items object) [] = [("a", 1)].
Proof. intros object w. by vm_compute. Qed.

(** * Further properties of the module *)

(** ** How [add_item] and [remove_item] combine *)

(** A call of [add_item] or [remove_item] for one item, whatever its
    arguments and whether it returns or raises, leaves the quantity of
    every other item as it was. *)
Theorem other_items_keep_quantity (w : world) (item qty logs : pyval)
    (now : string) (k : string) :
  item ≠ PStr k →
  dict_get k (stock (add_item item qty logs now w).2) = dict_get k (stock w) ∧
  dict_get k (stock (remove_item item qty w).2) = dict_get k (stock w).
Proof.
  intros Hk. destruct (valid_item item) eqn:Hitem.
  - destruct (valid_item_name item Hitem) as [Heq _].
    assert (k ≠ item_name item) by (intros ->; by apply Hk).
    split; [by apply add_item_other | by apply remove_item_other].
  - rewrite add_item_invalid, remove_item_invalid by auto. done.
Qed.

Lemma other_items_keep_quantity_witness :
  let w := World [("apple", 10); ("banana", 2)] ∅ [] in
  dict_get "banana" (stock (add_item (PStr "apple") (PInt (-10)) PNone "t" w).2)
    = Some 2 ∧
  dict_get "banana" (stock (remove_item (PStr "apple") (PInt 3) w).2) = Some 2.
Proof.
  intros w. split.
  - apply (other_items_keep_quantity w (PStr "apple") (PInt (-10)) PNone "t"
             "banana"). by intros [=].
  - apply (other_items_keep_quantity w (PStr "apple") (PInt 3) PNone "t"
             "banana"). by intros [=].
Defined.

(** On an inventory whose quantities are all positive, adding a positive
    quantity of an item and then removing the same quantity gives back
    the very dictionary there was: same items, same quantities, same
    order; an item that was absent is absent again. *)
Theorem add_then_remove_restores (w : world) (s : string) (qty logs : pyval)
    (now : string) :
  s ≠ "" → isinstance_int qty = true → 0 < int_value qty →
  all_positive (stock w) →
  (remove_item (PStr s) qty (add_item (PStr s) qty logs now w).2).1 = Return () ∧
  stock (remove_item (PStr s) qty (add_item (PStr s) qty logs now w).2).2
  = stock w.
Proof.
  intros Hs Hqty Hpos Hinv.
  assert (Hitem := valid_item_str s Hs).
  assert (Hadd := add_item_stock (PStr s) qty logs now w Hitem Hqty).
  unfold added in Hadd. simpl in Hadd.
  set (w1 := (add_item (PStr s) qty logs now w).2) in *.
  set (q := int_value qty) in *.
  destruct (dict_get s (stock w)) as [cur|] eqn:Hcur; simpl in Hadd.
  - assert (0 < cur) by (by eapply dict_get_positive).
    destruct (Z.leb_spec (cur + q) 0); [lia|].
    rewrite (remove_item_eq (PStr s) qty w1 (cur + q));
      [| done | done | done | cbn [item_name]; by rewrite Hadd, dict_get_set_eq].
    simpl. fold q. destruct (Z.leb_spec (cur + q) q); [lia|]. simpl.
    split; [done|]. rewrite Hadd, dict_set_set.
    replace (cur + q - q) with cur by lia. by apply dict_set_same.
  - rewrite Z.add_0_l in Hadd. destruct (Z.leb_spec q 0); [lia|].
    rewrite (remove_item_eq (PStr s) qty w1 q);
      [| done | done | done | cbn [item_name]; by rewrite Hadd, dict_get_set_eq].
    simpl. fold q. destruct (Z.leb_spec q q); [|lia]. simpl.
    split; [done|]. rewrite Hadd, dict_pop_set. by apply dict_pop_absent.
Qed.

Lemma add_then_remove_restores_witness :
  let w := World [("apple", 10); ("banana", 2)] ∅ [] in
  stock (remove_item (PStr "apple") (PInt 5)
           (add_item (PStr "apple") (PInt 5) PNone "t" w).2).2 = stock w ∧
  stock (remove_item (PStr "fig") (PInt 5)
           (add_item (PStr "fig") (PInt 5) PNone "t" w).2).2 = stock w.
Proof.
  intros w. split.
  - apply (add_then_remove_restores w "apple" (PInt 5) PNone "t");
      [done | done | simpl; lia | repeat constructor].
  - apply (add_then_remove_restores w "fig" (PInt 5) PNone "t");
      [done | done | simpl; lia | repeat constructor].
Defined.

(** For an item that is present, [add_item] with the negative quantity
    [-z] leaves the same dictionary as [remove_item] with [z]. For an
    item that is absent the two differ: [add_item] leaves the
    dictionary alone and never raises [KeyError], [remove_item] raises
    [KeyError]. *)
Theorem add_negative_like_remove (w : world) (s : string) (z : Z)
    (logs : pyval) (now : string) :
  s ≠ "" → 0 < z →
  match dict_get s (stock w) with
  | Some _ =>
      stock (add_item (PStr s) (PInt (- z)) logs now w).2
      = stock (remove_item (PStr s) (PInt z) w).2
  | None =>
      stock (add_item (PStr s) (PInt (- z)) logs now w).2 = stock w ∧
      (add_item (PStr s) (PInt (- z)) logs now w).1 ≠ Raise KeyError ∧
      remove_item (PStr s) (PInt z) w = (Raise KeyError, w)
  end.
Proof.
  intros Hs Hz. assert (Hitem := valid_item_str s Hs).
  rewrite (add_item_stock (PStr s) (PInt (- z))) by done.
  unfold added. simpl.
  destruct (dict_get s (stock w)) as [cur|] eqn:Hcur; simpl.
  - rewrite (remove_item_eq (PStr s) (PInt z) w cur) by done.
    simpl. replace (cur + - z) with (cur - z) by lia.
    destruct (Z.leb_spec (cur - z) 0), (Z.leb_spec cur z); (done || lia).
  - rewrite !Z.add_0_l. destruct (Z.leb_spec (- z) 0); [|lia]. split_and!.
    + by apply dict_pop_absent.
    + rewrite add_item_valid by done.
      destruct (logs_list logs); [|done]. by destruct (py_str_int _).
    + by apply remove_item_missing.
Qed.

Lemma add_negative_like_remove_witness :
  let w := World [("apple", 10); ("banana", 2)] ∅ [] in
  stock (add_item (PStr "apple") (PInt (-3)) PNone "t" w).2
    = stock (remove_item (PStr "apple") (PInt 3) w).2 ∧
  remove_item (PStr "fig") (PInt 3) w = (Raise KeyError, w).
Proof.
  intros w. split.
  - apply (add_negative_like_remove w "apple" 3 PNone "t"); [done | lia].
  - apply (add_negative_like_remove w "fig" 3 PNone "t"); [done | lia].
Defined.

(** Two calls of [add_item] for the same item leave the dictionary that
    one call with the sum leaves, provided the first call leaves the
    item in stock (its total is positive). *)
Theorem add_item_twice (w : world) (s : string) (q1 q2 : pyval)
    (logs1 logs2 logs : pyval) (now1 now2 now : string) :
  s ≠ "" → isinstance_int q1 = true → isinstance_int q2 = true →
  0 < default 0 (dict_get s (stock w)) + int_value q1 →
  stock (add_item (PStr s) q2 logs2 now2
           (add_item (PStr s) q1 logs1 now1 w).2).2
  = stock (add_item (PStr s) (PInt (int_value q1 + int_value q2)) logs now w).2.
Proof.
  intros Hs Hq1 Hq2 Htotal. assert (Hitem := valid_item_str s Hs).
  rewrite (add_item_stock (PStr s) q2) by done.
  rewrite (add_item_stock (PStr s) q1) by done.
  rewrite (add_item_stock (PStr s) (PInt _)) by done.
  unfold added. simpl.
  destruct (Z.leb_spec (default 0 (dict_get s (stock w)) + int_value q1) 0);
    [lia|].
  rewrite dict_get_set_eq. simpl. rewrite Z.add_assoc.
  destruct (_ <=? 0); [apply dict_pop_set | apply dict_set_set].
Qed.

Lemma add_item_twice_witness :
  let w := World [("apple", 10)] ∅ [] in
  stock (add_item (PStr "apple") (PInt 4) PNone "t2"
           (add_item (PStr "apple") (PInt (-3)) PNone "t1" w).2).2
  = stock (add_item (PStr "apple") (PInt 1) PNone "t" w).2.
Proof.
  intros w.
  apply (add_item_twice w "apple" (PInt (-3)) (PInt 4) PNone PNone PNone
           "t1" "t2" "t"); [done | done | done | simpl; lia].
Defined.

(** ** [load_data], in full *)


Lemma clean_warnings_level items :
  Forall (λ r, record_level r = WARNING) (clean_warnings items).
Proof.
  induction items as [|[k v] rest IH]; simpl; [constructor|].
  destruct (isinstance_str k); simpl; [|by constructor].
  destruct (py_int v) as [e|vi]; [|done].
  destruct (_ || _); by constructor.
Qed.

Lemma load_data_files (file : string) (w : world) :
  files (load_data file w).2 = files w.
Proof.
  rewrite load_data_eq. simpl.
  destruct (files w !! file) as [[|[|e|v]]|]; try done.
  destruct v as [| | | | | |items]; try done.
  by destruct (clean_result items []).
Qed.



(** Loading the same file a second time changes nothing more: the
    inventory after two calls is the inventory after one. *)
Theorem load_data_twice (file : string) (w : world) :
  stock (load_data file (load_data file w).2).2 = stock (load_data file w).2.
Proof.
  rewrite (load_data_stock file (load_data file w).2), load_data_files.
  rewrite (load_data_stock file w).
  destruct (files w !! file) as [[|[|e|v]]|]; try done.
  destruct v as [| | | | | |items]; try done.
  by destruct (clean_result items []).
Qed.



(** ** [save_data], in full *)



(** ** Files and the other calls *)

Lemma run_keeps_files (c : call) (w : world) :
  (∀ file, c ≠ Save_data file) → files (run c w) = files w.
Proof.
  intros Hc. destruct c as [item qty logs now | item qty | item | t | f | f];
    simpl.
  - apply add_item_files.
  - destruct (remove_item_cases item qty w)
      as [(Hi & Hq & Hp & [cur Hcur] & _) | [(_ & _ & _ & _ & ->) | [_ ->]]];
      [|done|done].
    rewrite (remove_item_eq item qty w cur) by done.
    by destruct (_ <=? _).
  - by rewrite get_qty_eq.
  - by rewrite check_low_items_eq.
  - apply load_data_files.
  - by destruct (Hc f).
Qed.

Lemma run_all_keeps_files (cs : list call) (w : world) :
  Forall (λ c, ∀ file, c ≠ Save_data file) cs →
  files (run_all cs w) = files w.
Proof.
  unfold run_all. revert w. induction cs as [|c cs IH]; intros w Hcs; [done|].
  apply Forall_cons in Hcs as [Hc Hcs]. simpl.
  rewrite IH by done. by apply run_keeps_files.
Qed.

(** [save_data] is the only operation that writes: any sequence of the
    other calls, with any arguments, leaves every file as it was,
    [load_data] included. *)
Theorem only_save_data_writes (cs : list call) (w : world) :
  Forall (λ c, ∀ file, c ≠ Save_data file) cs →
  files (run_all cs w) = files w.
Proof. apply run_all_keeps_files. Qed.


(** ** What the invariant gives the queries *)

Lemma reachable_positive (w : world) : reachable w → all_positive (stock w).
Proof.
  induction 1 as [fs | c w _ IH]; [constructor | by apply run_positive].
Qed.

(** In every state the module can reach, [get_qty] of a non-empty name
    returns a quantity that is never negative, and returns 0 only for an
    item that is not in the inventory: no item is kept at 0. *)
Theorem get_qty_zero_only_absent (w : world) (s : string) :
  reachable w → s ≠ "" →
  ∃ q, get_qty (PStr s) w = (Return q, w) ∧ 0 ≤ q ∧
       (q = 0 ↔ dict_get s (stock w) = None).
Proof.
  intros Hw%reachable_positive Hs. rewrite get_qty_eq, valid_item_str by done.
  simpl. eexists. split; [done|].
  destruct (dict_get s (stock w)) as [q|] eqn:Hq; simpl.
  - assert (0 < q) by (by eapply dict_get_positive).
    split; [lia|]. split; [lia | done].
  - done.
Qed.

Lemma filter_sublist_impl {A} (P Q : A → Prop)
    `{∀ x, Decision (P x)} `{∀ x, Decision (Q x)} (l : list A) :
  (∀ x, P x → Q x) → filter P l `sublist_of` filter Q l.
Proof.
  intros HPQ. induction l as [|x l IH]; [done|].
  rewrite !filter_cons. destruct (decide (P x)) as [HP|HP].
  - rewrite decide_True by auto. by apply sublist_skip.
  - destruct (decide (Q x)); [by apply sublist_cons | done].
Qed.

(** Raising the threshold only adds names to the answer of
    [check_low_items], and keeps the ones already there in the same
    order; every answer lists items of the inventory, in the order of
    the inventory. *)
Theorem check_low_items_monotone (w : world) (t1 t2 : pyval) :
  isinstance_int t1 = true → isinstance_int t2 = true →
  0 ≤ int_value t1 → int_value t1 ≤ int_value t2 →
  ∃ low1 low2,
    check_low_items t1 w = (Return low1, w) ∧
    check_low_items t2 w = (Return low2, w) ∧
    low1 `sublist_of` low2 ∧
    low2 `sublist_of` (stock w).*1.
Proof.
  intros Hi1 Hi2 H1 H12. rewrite !check_low_items_eq, Hi1, Hi2. simpl.
  destruct (Z.leb_spec 0 (int_value t1)); [|lia].
  destruct (Z.leb_spec 0 (int_value t2)); [|lia].
  eexists _, _. split_and!; [done | done | |].
  - apply fmap_sublist, filter_sublist_impl. intros kv. lia.
  - apply fmap_sublist, sublist_filter.
Qed.

Lemma check_low_items_monotone_witness :
  let w := World [("pear", 1); ("fig", 3); ("kiwi", 2)] ∅ [] in
  ∃ low1 low2,
    check_low_items (PInt 2) w = (Return low1, w) ∧
    check_low_items (PInt 3) w = (Return low2, w) ∧
    low1 `sublist_of` low2 ∧
    low2 `sublist_of` (stock w).*1.
Proof.
  intros w. apply (check_low_items_monotone w (PInt 2) (PInt 3));
    (done || simpl; lia).
Defined.

(** In every state the module can reach, a threshold of 0 or 1 ([False]
    and [True] included) finds nothing: the inventory never holds an
    item below 1. *)
Theorem check_low_items_nothing_below_one (w : world) (threshold : pyval) :
  reachable w → isinstance_int threshold = true →
  0 ≤ int_value threshold → int_value threshold ≤ 1 →
  check_low_items threshold w = (Return [], w).
Proof.
  intros Hw%reachable_positive Hint H0 H1.
  rewrite check_low_items_eq, Hint. simpl.
  destruct (Z.leb_spec 0 (int_value threshold)); [|lia].
  do 2 f_equal. unfold all_positive in Hw.
  induction Hw as [|kv d Hkv _ IH]; [done|].
  rewrite filter_cons. destruct (decide (kv.2 < int_value threshold)); [lia|].
  exact IH.
Qed.

(** ** An item with the empty name *)

(** [load_data] takes an empty-string key from a file, but no other
    operation accepts the empty name: once such an item is in the
    inventory, no call of [add_item], [remove_item], [get_qty],
    [check_low_items] or [save_data], with any arguments, changes or
    removes it. Only another [load_data] can. *)
Theorem empty_name_entry_stays (w : world) (q : Z) (c : call) :
  dict_get "" (stock w) = Some q →
  (∀ file, c ≠ Load_data file) →
  dict_get "" (stock (run c w)) = Some q.
Proof.
  intros Hq Hc.
  destruct c as [item qty logs now | item qty | item | t | f | f]; simpl.
  - destruct (valid_item item) eqn:Hitem.
    + destruct (valid_item_name item Hitem) as [_ Hname].
      by rewrite add_item_other.
    + by rewrite add_item_invalid by auto.
  - destruct (valid_item item) eqn:Hitem.
    + destruct (valid_item_name item Hitem) as [_ Hname].
      by rewrite remove_item_other.
    + by rewrite remove_item_invalid by auto.
  - by rewrite get_qty_eq.
  - by rewrite check_low_items_eq.
  - by destruct (Hc f).
  - by rewrite save_data_stock.
Qed.

(** ** [print_data] *)

Global Instance item_le_total : Total item_le.
Proof.
  intros [k1 v1] [k2 v2]. unfold item_le. simpl.
  destruct (decide (k1 = k2)) as [->|Hne].
  - destruct (Z.le_ge_cases v1 v2); [left | right]; right; done.
  - destruct (total String.le k1 k2); [left | right]; left; done.
Qed.

Global Instance item_le_trans : Transitive item_le.
Proof.
  intros [k1 v1] [k2 v2] [k3 v3]. unfold item_le. simpl.
  intros [[Hne12 H12] | [-> H12]] [[Hne23 H23] | [-> H23]].
  - left. split; [|by etrans]. intros ->.
    apply Hne12. by apply (anti_symm String.le).
  - left. done.
  - left. done.
  - right. split; [done | lia].
Qed.

Global Instance item_le_antisymm : AntiSymm (=) item_le.
Proof.
  intros [k1 v1] [k2 v2]. unfold item_le. simpl.
  intros [[Hne H12] | [-> H12]] [[Hne' H21] | [Heq H21]].
  - destruct Hne. by apply (anti_symm String.le).
  - by destruct Hne.
  - by destruct Hne'.
  - f_equal. lia.
Qed.

Lemma item_le_name (a b : string * Z) : item_le a b → String.le a.1 b.1.
Proof. intros [[_ H] | [-> _]]; [done | reflexivity]. Qed.

Lemma print_items_all (items : list (string * Z)) :
  Forall (λ kv, str_fits kv.2 = true) items →
  Forall (λ kv, stdout_encodes (report_text kv) = true) items →
  print_items items = (report_text <$> items, Return ()).
Proof.
  induction items as [|kv rest IH]; intros Hfits Henc; [done|].
  apply Forall_cons in Hfits as [Hfit Hfits].
  apply Forall_cons in Henc as [Hen Henc].
  cbn [print_items]. unfold report_line, print. rewrite Hfit, Hen.
  by rewrite IH.
Qed.

(** When every quantity has at most 4300 digits and standard output
    can encode the heading and every line, [print_data] prints the
    heading and then one line per item of the inventory, each item
    once, in ascending order of name, and returns; it changes
    nothing. *)
Theorem print_data_lists_by_name (w : world) :
  Forall (λ kv, str_fits kv.2 = true) (stock w) →
  stdout_encodes "Items Report" = true →
  Forall (λ kv, stdout_encodes (report_text kv) = true) (stock w) →
  ∃ items,
    print_data w = ("Items Report" :: (report_text <$> items), Return (), w) ∧
    items ≡ₚ stock w ∧
    StronglySorted String.le items.*1.
Proof.
  intros Hfits Hhead Henc.
  assert (Hperm := merge_sort_Permutation item_le (stock w)).
  exists (merge_sort item_le (stock w)). split_and!.
  - unfold print_data, print. rewrite Hhead.
    rewrite print_items_all; [done | by rewrite Hperm | by rewrite Hperm].
  - done.
  - apply (StronglySorted_fmap _ item_le); [apply item_le_name|].
    apply StronglySorted_merge_sort; apply _.
Qed.

(** The report does not depend on the order in which the items came
    into the inventory: two inventories with the same items print the
    same lines. *)
Theorem print_data_order_independent (w1 w2 : world) :
  stock w1 ≡ₚ stock w2 → (print_data w1).1 = (print_data w2).1.
Proof.
  intros Hperm.
  assert (Hsame : merge_sort item_le (stock w1) = merge_sort item_le (stock w2)).
  { apply (Sorted_unique item_le).
    - apply Sorted_merge_sort; apply _.
    - apply Sorted_merge_sort; apply _.
    - by rewrite !merge_sort_Permutation. }
  unfold print_data. rewrite Hsame.
  by destruct (print "Items Report") as [out [[]|e]].
Qed.

End module.

(** * The module at work

    The theorems above, applied to concrete inventories and files, with
    the library at hand for the examples. *)

Example main_run :
  let run := run ascii_digits read_back_same in
  let w1 := run (Add_item (PStr "apple") (PInt 10) PNone "t1") start in
  let w2 := run (Add_item (PStr "banana") (PInt 2) PNone "t2") w1 in
  let w3 := run (Add_item (PStr "orange") (PInt (-1)) PNone "t3") w2 in
  let w4 := run (Remove_item (PStr "apple") (PInt 3)) w3 in
  stock w4 = [("apple", 7); ("banana", 2)] ∧
  (get_qty (PStr "apple") w4).1 = Return 7 ∧
  (check_low_items (PInt 5) w4).1 = Return ["banana"] ∧
  stock (run (Load_data "inventory.json")
           (run (Save_data "inventory.json") w4)) = stock w4 ∧
  (print_data encodes_all w4).1
  = (["Items Report"; "apple -> 7"; "banana -> 2"], Return ()).
Proof. vm_compute. done. Qed.

Example load_data_mixed :
  let object :=
    PDict [(PStr "a", PInt 1); (PStr "b", PStr "x"); (PStr "c", PInt 0);
           (PStr "d", PStr "4"); (PStr "e", PNone);
           (PStr "f", PFloat (FFinite false 5 (-1))); (PStr "g", PBool true);
           (PStr "h", PInt (-2)); (PStr "i", PFloat FNan)] in
  let w := World [("old", 3)] {[ "inventory.json" := File (Json object) ]} [] in
  stock (load_data ascii_digits "inventory.json" w).2
    = [("a", 1); ("d", 4); ("f", 2); ("g", 1)] ∧
  records (load_data ascii_digits "inventory.json" w).2
    = [Skipping_non_int_value "b" (PStr "x");
       Skipping_non_int_value "e" PNone;
       Skipping_non_int_value "i" (PFloat FNan);
       Loaded 4 "inventory.json"].
Proof. intros object w. by vm_compute. Qed.

Example print_data_stops :
  (print_data encodes_all
     (World [("pear", 4); ("apple", int_str_bound); ("fig", 1)] ∅ [])).1
  = (["Items Report"], Raise ValueError).
Proof. by vm_compute. Qed.

Lemma stock_always_positive_witness :
  all_positive
    (stock (run ascii_digits read_back_same (Remove_item (PStr "apple") (PInt 4))
              (run ascii_digits read_back_same
                 (Add_item (PStr "apple") (PInt 10) PNone "t")
                 (World [] ∅ [])))).
Proof.
  apply (proj1 (stock_always_positive ascii_digits read_back_same)).
  repeat constructor.
Defined.

Lemma save_then_load_same_stock_witness :
  let w := World [("apple", 7); ("banana", 2)] ∅ [] in
  stock (load_data ascii_digits "inventory.json"
           (save_data read_back_same "inventory.json" w).2).2
  = [("apple", 7); ("banana", 2)].
Proof.
  intros w.
  apply (save_then_load_same_stock ascii_digits read_back_same w
           "inventory.json").
  - unfold dict_wf. simpl. apply (bool_decide_unpack _). by vm_compute.
  - unfold all_positive. simpl. repeat constructor.
  - repeat constructor.
  - by vm_compute.
Defined.

(** C6 (as stated) fails when the save fails: with the temporary path
    locked, [save_data] writes nothing, logs the failure and returns,
    and [load_data] then reads the older file. *)
Lemma save_then_load_after_failed_save :
  let w := World [("apple", 7)]
             {[ "inventory.json" := File (Json (PDict [(PStr "pear", PInt 1)]));
                "inventory.json.tmp" := Locked ]} [] in
  dict_wf (stock w) ∧ all_positive (stock w) ∧
  save_data read_back_same "inventory.json" w
    = (Return (), with_record (Failed_to_save "inventory.json") w) ∧
  stock (load_data ascii_digits "inventory.json"
           (save_data read_back_same "inventory.json" w).2).2
    = [("pear", 1)] ∧
  stock (load_data ascii_digits "inventory.json"
           (save_data read_back_same "inventory.json" w).2).2
    ≠ stock w.
Proof.
  intros w. split_and!.
  - unfold dict_wf. simpl. apply NoDup_singleton.
  - unfold all_positive. simpl. repeat constructor.
  - by vm_compute.
  - by vm_compute.
  - vm_compute. discriminate.
Qed.



Lemma only_save_data_writes_witness :
  let w := World [("apple", 1)]
             {[ "inventory.json" := File (Json (PDict [(PStr "pear", PInt 2)])) ]}
             [] in
  files (run_all ascii_digits read_back_same
           [Load_data "inventory.json";
            Add_item (PStr "fig") (PInt 3) PNone "t";
            Remove_item (PStr "pear") (PInt 9);
            Load_data "missing.json"] w) = files w.
Proof.
  intros w. apply only_save_data_writes.
  repeat constructor; by intros file.
Defined.


Lemma get_qty_zero_only_absent_witness :
  let w := run ascii_digits read_back_same
             (Add_item (PStr "apple") (PInt (-4)) PNone "t2")
             (run ascii_digits read_back_same
                (Add_item (PStr "apple") (PInt 4) PNone "t1") start) in
  ∃ q, get_qty (PStr "apple") w = (Return q, w) ∧ 0 ≤ q ∧
       (q = 0 ↔ dict_get "apple" (stock w) = None).
Proof.
  intros w.
  apply (get_qty_zero_only_absent ascii_digits read_back_same w "apple");
    [|done].
  repeat constructor.
Defined.

Lemma check_low_items_nothing_below_one_witness :
  let w := run ascii_digits read_back_same
             (Remove_item (PStr "apple") (PInt 9))
             (run ascii_digits read_back_same
                (Add_item (PStr "apple") (PInt 10) PNone "t") start) in
  check_low_items (PBool true) w = (Return [], w).
Proof.
  intros w.
  apply (check_low_items_nothing_below_one ascii_digits read_back_same w
           (PBool true));
    [repeat constructor | done | simpl; lia | simpl; lia].
Defined.

Lemma empty_name_entry_stays_witness :
  let fs : gmap string node :=
    {[ "inventory.json" := File (Json (PDict [(PStr "", PInt 5)])) ]} in
  let run := run ascii_digits read_back_same in
  let w := run (Load_data "inventory.json") (World [] fs []) in
  dict_get "" (stock w) = Some 5 ∧
  dict_get "" (stock (run (Remove_item (PStr "") (PInt 5)) w)) = Some 5 ∧
  dict_get "" (stock (run (Add_item (PStr "") (PInt (-5)) PNone "t") w)) = Some 5.
Proof.
  intros fs run w. split_and!.
  - by vm_compute.
  - apply (empty_name_entry_stays ascii_digits read_back_same w 5);
      [by vm_compute | by intros file].
  - apply (empty_name_entry_stays ascii_digits read_back_same w 5);
      [by vm_compute | by intros file].
Defined.

Lemma print_data_lists_by_name_witness :
  let w := World [("pear", 4); ("apple", 10); ("fig", 1)] ∅ [] in
  ∃ items,
    print_data encodes_all w
    = ("Items Report" :: (report_text <$> items), Return (), w) ∧
    items ≡ₚ stock w ∧
    StronglySorted String.le items.*1.
Proof.
  intros w. apply (print_data_lists_by_name encodes_all w).
  - repeat constructor.
  - done.
  - repeat constructor.
Defined.

Lemma print_data_order_independent_witness :
  (print_data encodes_all (World [("pear", 4); ("apple", 10)] ∅ [])).1
  = (print_data encodes_all (World [("apple", 10); ("pear", 4)] ∅ [])).1.
Proof.
  apply (print_data_order_independent encodes_all
           (World [("pear", 4); ("apple", 10)] ∅ [])
           (World [("apple", 10); ("pear", 4)] ∅ [])).
  simpl. apply Permutation_swap.
Defined.
